(** * COMMONprotocol relay server: registry, handshake and routing

    A shallow embedding of [src/internal/server.py].  The handler
    [handle_agent_connection] is a coroutine; its suspension points are
    [websocket.recv()], the iteration [async for ... in websocket] and
    [websocket.send(...)].  Here one handler runs over the frames its
    peer sends, from a given state of the process-wide dictionary
    [CONNECTED_AGENTS], and every send either lands in the trace of
    delivered messages or raises because the target connection is gone.
    What a handler does between two receptions is taken as a whole: no
    other handler touches the dictionary in the middle of it.  The one
    place where the code reads the dictionary across suspended sends,
    the broadcast loop, is modelled a second time with other handlers
    ending in between ([broadcast_live]).
    Calls to [logging] have no effect on the registry or on what is
    sent and are left out. *)

From Stdlib Require Import List String Ascii ZArith Bool Lia DecimalString.
Import ListNotations.
Open Scope string_scope.

(** ** Values produced by [json.loads] *)

(** Python values a JSON document decodes to.  Numbers are the integer
    literals; [JDict] holds the items of the decoded [dict] in insertion
    order, one per key. *)
#[local] Unset Elimination Schemes.
Inductive json : Type :=
| JNull
| JBool (b : bool)
| JInt (n : Z)
| JStr (s : string)
| JList (xs : list json)
| JDict (items : list (string * json)).
#[local] Set Elimination Schemes.

(** Truth value of a Python object, as tested by [not x] and [all([...])]. *)
Definition truthy (v : json) : bool :=
  match v with
  | JNull => false
  | JBool b => b
  | JInt n => negb (n =? 0)%Z
  | JStr s => negb (s =? "")
  | JList xs => match xs with [] => false | _ :: _ => true end
  | JDict items => match items with [] => false | _ :: _ => true end
  end.

(** Hashable values up to [==]: [True == 1] and [False == 0] hash alike,
    lists and dicts are unhashable. *)
Inductive atom : Type :=
| ANone
| ANum (n : Z)
| AStr (s : string).

Definition atom_of (v : json) : option atom :=
  match v with
  | JNull => Some ANone
  | JBool b => Some (ANum (if b then 1 else 0)%Z)
  | JInt n => Some (ANum n)
  | JStr s => Some (AStr s)
  | JList _ => None
  | JDict _ => None
  end.

Definition atom_eqb (a b : atom) : bool :=
  match a, b with
  | ANone, ANone => true
  | ANum n, ANum m => (n =? m)%Z
  | AStr s, AStr t => (s =? t)
  | _, _ => false
  end.

(** [a == b] where at least one operand is a scalar, which is how the
    server compares: against string constants, the shared secret and
    dictionary keys. *)
Definition py_eq (a b : json) : bool :=
  match atom_of a, atom_of b with
  | Some x, Some y => atom_eqb x y
  | _, _ => false
  end.

(** ** Connections, exceptions and the process state *)

Definition ws := nat.

Inductive closing : Type := ClosedOK | ClosedError.

Inductive exn : Type :=
| JSONDecodeError
| AttributeError
| TypeError
| KeyError
| RuntimeError
| ConnectionClosed (c : closing).

(** What [send] is given: the received text passed on as it is, or
    [json.dumps] of an object the server builds. *)
Inductive wire : Type :=
| Verbatim (message_str : string)
| Dumps (obj : json).

Record world : Type := mkWorld {
  CONNECTED_AGENTS : list (json * ws);   (* dict, in insertion order *)
  hung_up : list (ws * closing);         (* connections whose send raises *)
  delivered : list (ws * wire)           (* successful sends, oldest first *)
}.

Inductive outcome (A : Type) : Type :=
| Ret (a : A)
| Raise (e : exn).
Arguments Ret {A} a.
Arguments Raise {A} e.

Definition M (A : Type) : Type := world -> outcome A * world.

Definition ret {A} (a : A) : M A := fun st => (Ret a, st).

Definition raise {A} (e : exn) : M A := fun st => (Raise e, st).

Definition bind {A B} (c : M A) (k : A -> M B) : M B :=
  fun st => match c st with
           | (Ret a, st') => k a st'
           | (Raise e, st') => (Raise e, st')
           end.

(** [try: c  except ...: h e] ; an exception raised by the handler itself
    propagates. *)
Definition try_except {A} (c : M A) (h : exn -> M A) : M A :=
  fun st => match c st with
           | (Ret a, st') => (Ret a, st')
           | (Raise e, st') => h e st'
           end.

Notation "x <- c ;; k" := (bind c (fun x => k))
  (at level 61, c at next level, right associativity).
Notation "c ;; k" := (bind c (fun _ => k))
  (at level 61, right associativity).

(** ** The dictionary [CONNECTED_AGENTS] *)

Module Registry.

Definition t := list (json * ws).

Fixpoint lookup (d : t) (k : json) : option ws :=
  match d with
  | [] => None
  | (k', w) :: d' => if py_eq k' k then Some w else lookup d' k
  end.

(** [d[k] = w]: an existing key keeps its place, a new one goes last. *)
Fixpoint setitem (d : t) (k : json) (w : ws) : t :=
  match d with
  | [] => [(k, w)]
  | (k', w') :: d' =>
      if py_eq k' k then (k', w) :: d' else (k', w') :: setitem d' k w
  end.

Fixpoint delitem (d : t) (k : json) : t :=
  match d with
  | [] => []
  | (k', w') :: d' => if py_eq k' k then d' else (k', w') :: delitem d' k
  end.

Definition keys (d : t) : list json := map fst d.

(** What a dict guarantees: hashable keys, no two of them equal. *)
Fixpoint wf (d : t) : Prop :=
  match d with
  | [] => True
  | (k, _) :: d' => atom_of k <> None /\ lookup d' k = None /\ wf d'
  end.

End Registry.

Definition link (st : world) (w : ws) : option closing :=
  match find (fun p => Nat.eqb (fst p) w) st.(hung_up) with
  | Some (_, c) => Some c
  | None => None
  end.

(** [await w.send(m)] *)
Definition send (w : ws) (m : wire) : M unit :=
  fun st => match link st w with
           | Some c => (Raise (ConnectionClosed c), st)
           | None => (Ret tt, mkWorld st.(CONNECTED_AGENTS) st.(hung_up)
                                      (st.(delivered) ++ [(w, m)]))
           end.

(** [k in CONNECTED_AGENTS] *)
Definition contains (k : json) : M bool :=
  fun st => match atom_of k with
           | None => (Raise TypeError, st)
           | Some _ => (Ret (match Registry.lookup st.(CONNECTED_AGENTS) k with
                             | Some _ => true
                             | None => false
                             end), st)
           end.

(** [CONNECTED_AGENTS[k]] *)
Definition getitem (k : json) : M ws :=
  fun st => match atom_of k with
           | None => (Raise TypeError, st)
           | Some _ => match Registry.lookup st.(CONNECTED_AGENTS) k with
                       | Some w => (Ret w, st)
                       | None => (Raise KeyError, st)
                       end
           end.

Definition with_agents (f : Registry.t -> Registry.t) : M unit :=
  fun st => (Ret tt, mkWorld (f st.(CONNECTED_AGENTS)) st.(hung_up) st.(delivered)).

(** The state [st] after the sends [l] have gone through. *)
Definition deliver (st : world) (l : list (ws * wire)) : world :=
  mkWorld st.(CONNECTED_AGENTS) st.(hung_up) (st.(delivered) ++ l).

(** [obj.get(k)]: only a dict has [get]; a missing key gives [None]. *)
Definition field (items : list (string * json)) (k : string) : json :=
  match find (fun kv => fst kv =? k) items with
  | Some (_, v) => v
  | None => JNull
  end.

Definition get (obj : json) (k : string) : M json :=
  match obj with
  | JDict items => ret (field items k)
  | _ => raise AttributeError
  end.

Definition SERVER_ERROR (content : string) : wire :=
  Dumps (JDict [("type", JStr "SERVER_ERROR"); ("content", JStr content)]).

Definition SERVER_INFO (content : string) : wire :=
  Dumps (JDict [("type", JStr "SERVER_INFO"); ("content", JStr content)]).

Definition LIST_AGENTS_RESPONSE (agents : list json) (requester_id : json) : wire :=
  Dumps (JDict [("type", JStr "LIST_AGENTS_RESPONSE");
                ("agents", JList agents);
                ("requester_id", requester_id)]).

(** ** The server *)

Section Server.

(** [json.loads]: [None] stands for [json.JSONDecodeError]. *)
Variable json_loads : string -> option json.

(** [str(v)], as an f-string applies it to a replacement field. *)
Variable str_of : json -> string.

(** [os.getenv("AGENT_AUTH_SECRET", "super_secret_key_123")], read once. *)
Variable SHARED_SECRET : string.

Definition loads (text : string) : M json :=
  match json_loads text with
  | Some v => ret v
  | None => raise JSONDecodeError
  end.

(** server.py, lines 25-33 *)
Definition register_agent (websocket : ws) (agent_id : json) : M unit :=
  with_agents (fun d => Registry.setitem d agent_id websocket) ;;
  send websocket
       (SERVER_INFO ("Welcome, agent " ++ str_of agent_id ++ "! You are now online.")).

(** server.py, lines 35-42 *)
Definition unregister_agent (agent_id : json) : M unit :=
  present <- contains agent_id ;;
  if present
  then with_agents (fun d => Registry.delitem d agent_id)
  else ret tt.

(** How the first part of the handler is left: on to the receive loop,
    or through one of the [return]s. *)
Inductive verdict : Type := Accepted | Refused.

(** server.py, lines 57-74: the branch taken for an [AGENT_REGISTER]
    message, once [agent_id] and [auth_token] are read. *)
Definition validate (websocket : ws) (agent_id auth_token : json) : M verdict :=
  if negb (truthy agent_id) then
    send websocket (SERVER_ERROR "Registration failed: 'agent_id' is missing.") ;;
    ret Refused
  else if negb (py_eq auth_token (JStr SHARED_SECRET)) then
    send websocket (SERVER_ERROR "Authentication failed: Invalid token.") ;;
    ret Refused
  else
    online <- contains agent_id ;;
    if online then
      send websocket
           (SERVER_ERROR ("Agent ID '" ++ str_of agent_id
                          ++ "' is already in use. Please choose a different ID.")) ;;
      ret Refused
    else
      register_agent websocket agent_id ;;
      ret Accepted.

(** server.py, lines 55-78.  The first component is the value the local
    variable [agent_id] holds when this part is left, whichever way:
    it is [None] until line 58 assigns it. *)
Definition handshake (websocket : ws) (auth_reg_message_str : string)
  : world -> json * outcome verdict * world :=
  fun st =>
    match json_loads auth_reg_message_str with
    | None => (JNull, Raise JSONDecodeError, st)
    | Some auth_reg_message =>
        match get auth_reg_message "type" st with
        | (Raise e, st1) => (JNull, Raise e, st1)
        | (Ret ty, st1) =>
            if py_eq ty (JStr "AGENT_REGISTER") then
              match (agent_id <- get auth_reg_message "agent_id" ;;
                     auth_token <- get auth_reg_message "auth_token" ;;
                     ret (agent_id, auth_token)) st1 with
              | (Raise e, st2) => (JNull, Raise e, st2)
              | (Ret (agent_id, auth_token), st2) =>
                  let '(r, st3) := validate websocket agent_id auth_token st2 in
                  (agent_id, r, st3)
              end
            else
              let '(r, st2) :=
                (send websocket
                      (SERVER_ERROR "Initial message must be an 'AGENT_REGISTER' type with auth_token.") ;;
                 ret Refused) st1 in
              (JNull, r, st2)
        end
    end.

(** server.py, lines 124-130: the loop over [CONNECTED_AGENTS.items()]
    when no other handler touches the dictionary while a send is
    suspended; a failed send is logged and the loop goes on.  The loop
    over the live dictionary is [broadcast_live] below, of which this
    is the case of an idle environment ([broadcast_live_idle]). *)
Fixpoint broadcast (items : list (json * ws)) (sender_id : json)
         (message_str : string) : M unit :=
  match items with
  | [] => ret tt
  | (agent_id_online, ws_conn) :: rest =>
      (if negb (py_eq agent_id_online sender_id)
       then try_except (send ws_conn (Verbatim message_str)) (fun _ => ret tt)
       else ret tt) ;;
      broadcast rest sender_id message_str
  end.

Definition all (vs : list json) : bool := forallb truthy vs.

Definition agents : M Registry.t := fun st => (Ret st.(CONNECTED_AGENTS), st).

(** server.py, lines 83-148: the [try] block of the loop body. *)
Definition dispatch (websocket : ws) (message_str : string) : M unit :=
  message <- loads message_str ;;
  message_type <- get message "type" ;;
  sender_id <- get message "sender_id" ;;
  if py_eq message_type (JStr "AGENT_MESSAGE") then
    receiver_id <- get message "receiver_id" ;;
    content <- get message "content" ;;
    if negb (all [sender_id; receiver_id; content]) then
      send websocket
           (SERVER_ERROR "Message missing sender_id, receiver_id, or content.")
    else
      online <- contains receiver_id ;;
      if online then
        receiver_websocket <- getitem receiver_id ;;
        send receiver_websocket (Verbatim message_str)
      else
        send websocket
             (SERVER_ERROR ("Agent '" ++ str_of receiver_id
                            ++ "' is not online. Message not delivered."))
  else if py_eq message_type (JStr "BROADCAST_MESSAGE") then
    content <- get message "content" ;;
    if negb (all [sender_id; content]) then
      send websocket
           (SERVER_ERROR "Broadcast message missing sender_id or content.")
    else
      d <- agents ;;
      broadcast d sender_id message_str
  else if py_eq message_type (JStr "LIST_AGENTS_REQUEST") then
    d <- agents ;;
    let online_agents := Registry.keys d in
    send websocket (LIST_AGENTS_RESPONSE online_agents sender_id)
  else
    send websocket
         (SERVER_ERROR ("Unknown message type '" ++ str_of message_type ++ "'.")).

(** server.py, lines 82-161: one iteration of the receive loop. *)
Definition loop_body (websocket : ws) (message_str : string) : M unit :=
  try_except (dispatch websocket message_str)
    (fun e =>
       match e with
       | JSONDecodeError =>
           send websocket (SERVER_ERROR "Invalid JSON format received.")
       | _ =>
           send websocket
                (SERVER_ERROR "Internal server error while processing your message.")
       end).

(** server.py, line 81: [async for message_str in websocket].  The
    iteration ends quietly on a normal close and raises otherwise. *)
Fixpoint receive_loop (websocket : ws) (frames : list string) (c : closing)
  : M unit :=
  match frames with
  | [] => match c with
          | ClosedOK => ret tt
          | ClosedError => raise (ConnectionClosed ClosedError)
          end
  | message_str :: rest =>
      loop_body websocket message_str ;;
      receive_loop websocket rest c
  end.

(** server.py, lines 51-161: the outer [try] block, with the final value
    of the local [agent_id]. *)
Definition session (websocket : ws) (frames : list string) (c : closing)
  : world -> json * outcome unit * world :=
  fun st =>
    match frames with
    | [] => (JNull, Raise (ConnectionClosed c), st)
    | auth_reg_message_str :: rest =>
        match handshake websocket auth_reg_message_str st with
        | (agent_id, Ret Accepted, st1) =>
            let '(r, st2) := receive_loop websocket rest c st1 in
            (agent_id, r, st2)
        | (agent_id, Ret Refused, st1) => (agent_id, Ret tt, st1)
        | (agent_id, Raise e, st1) => (agent_id, Raise e, st1)
        end
    end.

(** server.py, lines 44-171.  The three [except] clauses of the outer
    [try] only log, so whatever the block raised is dropped; the
    [finally] clause then runs on every exit. *)
Definition handle_agent_connection (websocket : ws) (frames : list string)
           (c : closing) : M unit :=
  fun st =>
    let '(agent_id, _, st1) := session websocket frames c st in
    if truthy agent_id then unregister_agent agent_id st1 else (Ret tt, st1).

End Server.

(** ** The broadcast loop over the live dictionary

    [for ... in CONNECTED_AGENTS.items()] iterates the dictionary itself,
    and [await ws_conn.send(...)] inside the loop lets other handlers
    run.  The iterator remembers the number of entries it was created
    with and compares it with the dictionary at every step, the one that
    would end the loop included; when they differ it raises
    [RuntimeError] ("dictionary changed size during iteration").  Here
    the other handlers that run during a send are handlers that end:
    each runs its [finally] clause, that is [unregister_agent]. *)

(** [len(CONNECTED_AGENTS)] *)
Definition size : M nat :=
  fun st => (Ret (List.length st.(CONNECTED_AGENTS)), st).

(** The handlers of the agents [gone] end, one after the other, while a
    send is suspended; an exception in one of them is its own. *)
Fixpoint leave (gone : list json) : M unit :=
  match gone with
  | [] => ret tt
  | agent_id :: rest =>
      try_except (unregister_agent agent_id) (fun _ => ret tt) ;;
      leave rest
  end.

(** server.py, lines 124-130 on the live dictionary.  [used] is the size
    the iterator was created with, [todo] the entries it has not come
    to yet, and [meanwhile] gives, for each send in turn, the agents
    whose handlers end while it is suspended. *)
Fixpoint broadcast_live (used : nat) (todo : list (json * ws))
         (sender_id : json) (message_str : string)
         (meanwhile : list (list json)) : M unit :=
  n <- size ;;
  if negb (n =? used)%nat then raise RuntimeError
  else
    match todo with
    | [] => ret tt
    | (agent_id_online, ws_conn) :: rest =>
        if negb (py_eq agent_id_online sender_id) then
          try_except (send ws_conn (Verbatim message_str)) (fun _ => ret tt) ;;
          leave (hd [] meanwhile) ;;
          broadcast_live used rest sender_id message_str (tl meanwhile)
        else
          broadcast_live used rest sender_id message_str meanwhile
    end.

Section ServerLive.

Variable json_loads : string -> option json.
Variable str_of : json -> string.

(** server.py, lines 83-148, the broadcast loop running over the live
    dictionary. *)
Definition dispatch_live (websocket : ws) (message_str : string)
           (meanwhile : list (list json)) : M unit :=
  message <- loads json_loads message_str ;;
  message_type <- get message "type" ;;
  sender_id <- get message "sender_id" ;;
  if py_eq message_type (JStr "AGENT_MESSAGE") then
    receiver_id <- get message "receiver_id" ;;
    content <- get message "content" ;;
    if negb (all [sender_id; receiver_id; content]) then
      send websocket
           (SERVER_ERROR "Message missing sender_id, receiver_id, or content.")
    else
      online <- contains receiver_id ;;
      if online then
        receiver_websocket <- getitem receiver_id ;;
        send receiver_websocket (Verbatim message_str)
      else
        send websocket
             (SERVER_ERROR ("Agent '" ++ str_of receiver_id
                            ++ "' is not online. Message not delivered."))
  else if py_eq message_type (JStr "BROADCAST_MESSAGE") then
    content <- get message "content" ;;
    if negb (all [sender_id; content]) then
      send websocket
           (SERVER_ERROR "Broadcast message missing sender_id or content.")
    else
      d <- agents ;;
      broadcast_live (List.length d) d sender_id message_str meanwhile
  else if py_eq message_type (JStr "LIST_AGENTS_REQUEST") then
    d <- agents ;;
    let online_agents := Registry.keys d in
    send websocket (LIST_AGENTS_RESPONSE online_agents sender_id)
  else
    send websocket
         (SERVER_ERROR ("Unknown message type '" ++ str_of message_type ++ "'.")).

(** server.py, lines 82-161, likewise. *)
Definition loop_body_live (websocket : ws) (message_str : string)
           (meanwhile : list (list json)) : M unit :=
  try_except (dispatch_live websocket message_str meanwhile)
    (fun e =>
       match e with
       | JSONDecodeError =>
           send websocket (SERVER_ERROR "Invalid JSON format received.")
       | _ =>
           send websocket
                (SERVER_ERROR "Internal server error while processing your message.")
       end).

End ServerLive.

(** ** Messages built by the client

    [src/internal/agent.py] sends [json.dumps] of four dictionaries whose
    values are strings.  They serve as concrete frames further down. *)

Module Agent.

(** agent.py, lines 43-47 *)
Definition registration_message (agent_id auth_token : string)
  : list (string * string) :=
  [("type", "AGENT_REGISTER"); ("agent_id", agent_id); ("auth_token", auth_token)].

(** agent.py, lines 84-89 *)
Definition direct_message (agent_id receiver_id content : string)
  : list (string * string) :=
  [("type", "AGENT_MESSAGE"); ("sender_id", agent_id);
   ("receiver_id", receiver_id); ("content", content)].

(** agent.py, lines 103-107 *)
Definition broadcast_message (agent_id content : string)
  : list (string * string) :=
  [("type", "BROADCAST_MESSAGE"); ("sender_id", agent_id); ("content", content)].

(** agent.py, lines 121-124 *)
Definition list_request (agent_id : string) : list (string * string) :=
  [("type", "LIST_AGENTS_REQUEST"); ("sender_id", agent_id)].

End Agent.

Definition quoted (s : string) : string :=
  String "034"%char (s ++ String "034"%char EmptyString).

Fixpoint dumps_items (items : list (string * string)) : string :=
  match items with
  | [] => ""
  | [(k, v)] => quoted k ++ ": " ++ quoted v
  | (k, v) :: rest => quoted k ++ ": " ++ quoted v ++ ", " ++ dumps_items rest
  end.

(** The text [json.dumps] gives for a dict of strings that need no
    escaping: letters, digits, spaces and punctuation other than the
    double quote and the backslash. *)
Definition dumps (items : list (string * string)) : string :=
  "{" ++ dumps_items items ++ "}".

Definition as_dict (items : list (string * string)) : json :=
  JDict (map (fun kv => (fst kv, JStr (snd kv))) items).

(** A decoder for a given set of client messages: the text of each decodes
    to its dictionary, any other text is refused.  It agrees with
    [json.loads] on those texts and on text that is not JSON. *)
Definition decoder (known : list (list (string * string))) (text : string)
  : option json :=
  match find (fun m => dumps m =? text) known with
  | Some m => Some (as_dict m)
  | None => None
  end.

(** [str] on the scalars; the concrete runs format strings only. *)
Definition str_scalar (v : json) : string :=
  match v with
  | JNull => "None"
  | JBool true => "True"
  | JBool false => "False"
  | JInt n => NilZero.string_of_int (Z.to_int n)
  | JStr s => s
  | JList _ => "[...]"
  | JDict _ => "{...}"
  end.

Definition default_secret : string := "super_secret_key_123".

(** *** A concrete relay

    Three agents are online, each on its own open connection; connection 4
    is a newcomer.  [sample_loads] decodes the client messages used in
    the concrete runs. *)

Definition online : world :=
  mkWorld [(JStr "alice", 1); (JStr "bob", 2); (JStr "carol", 3)] [] [].

(** The same, carol's connection having dropped without her handler
    having run its [finally] clause yet. *)
Definition carol_dropped : world :=
  mkWorld [(JStr "alice", 1); (JStr "bob", 2); (JStr "carol", 3)]
          [(3, ClosedError)] [].

(** Four agents online, all connections open. *)
Definition four_online : world :=
  mkWorld [(JStr "alice", 1); (JStr "bob", 2); (JStr "carol", 3);
           (JStr "dave", 4)] [] [].

Definition sample_messages : list (list (string * string)) :=
  [ Agent.registration_message "bob" default_secret;
    Agent.registration_message "bob" "guess";
    Agent.registration_message "alice" default_secret;
    Agent.direct_message "alice" "bob" "hi";
    Agent.direct_message "alice" "alice" "note to self";
    Agent.broadcast_message "alice" "hello all";
    Agent.list_request "bob" ].

Definition sample_loads : string -> option json := decoder sample_messages.

(** Text that is not JSON. *)
Definition garbage : string := "hello?".

(** Is [m] the serialisation of a [SERVER_ERROR] object? *)
Definition is_server_error (m : wire) : bool :=
  match m with
  | Dumps (JDict items) => py_eq (field items "type") (JStr "SERVER_ERROR")
  | _ => false
  end.

(** A tag one of the branches of the receive loop handles. *)
Definition routed_tag (ty : json) : bool :=
  py_eq ty (JStr "AGENT_MESSAGE")
  || py_eq ty (JStr "BROADCAST_MESSAGE")
  || py_eq ty (JStr "LIST_AGENTS_REQUEST").

(** Number of keys of [l] equal to [k]. *)
Definition occurrences (k : json) (l : list json) : nat :=
  List.length (filter (fun k0 => py_eq k0 k) l).

(** The entries a broadcast from [sender_id] reaches: every one but the
    sender's whose connection takes the send. *)
Definition reached (st : world) (sender_id : json) : list (json * ws) :=
  filter (fun kw => negb (py_eq (fst kw) sender_id)
                    && match link st (snd kw) with None => true | Some _ => false end)
         st.(CONNECTED_AGENTS).

(** ** Further notions used in the statements *)

(** [c] changes nothing but the trace, and what it adds satisfies [P]. *)
Definition sends_only (P : ws * wire -> Prop) {A} (c : M A) : Prop :=
  forall st, exists l, snd (c st) = deliver st l /\ Forall P l.

(** An item of the trace that is either the received text passed on, or
    an answer built by the server for the connection the text came from. *)
Definition copy_or_answer (websocket : ws) (message_str : string)
           (p : ws * wire) : Prop :=
  snd p = Verbatim message_str
  \/ (fst p = websocket
      /\ ((exists content, snd p = SERVER_ERROR content)
          \/ (exists online_agents requester_id,
                 snd p = LIST_AGENTS_RESPONSE online_agents requester_id))).

(** The local [agent_id] at the [finally] clause: what the first frame
    names if it is an [AGENT_REGISTER] object, [None] otherwise. *)
Definition named_agent_id (json_loads : string -> option json)
           (frames : list string) : json :=
  match frames with
  | [] => JNull
  | first :: _ =>
      match json_loads first with
      | Some (JDict items) =>
          if py_eq (field items "type") (JStr "AGENT_REGISTER")
          then field items "agent_id"
          else JNull
      | _ => JNull
      end
  end.

(** ** Python string methods

    The methods of [str] that [agent.py] applies to a line typed at the
    prompt, on ASCII text. *)

Module PyStr.

Definition isupper (c : ascii) : bool :=
  let n := nat_of_ascii c in (65 <=? n)%nat && (n <=? 90)%nat.

Definition lower_char (c : ascii) : ascii :=
  if isupper c then ascii_of_nat (nat_of_ascii c + 32) else c.

(** [s.lower()] *)
Fixpoint lower (s : string) : string :=
  match s with
  | EmptyString => EmptyString
  | String c s' => String (lower_char c) (lower s')
  end.

(** The ASCII characters [str.isspace] accepts: tab to carriage return,
    the four separators 28-31 and the space.  [strip] below is
    [str.strip] on ASCII text only; the statements that depend on what
    it removes carry [isascii] as a hypothesis. *)
Definition isspace (c : ascii) : bool :=
  let n := nat_of_ascii c in
  ((9 <=? n)%nat && (n <=? 13)%nat) || ((28 <=? n)%nat && (n <=? 32)%nat).

Fixpoint lstrip (s : string) : string :=
  match s with
  | EmptyString => EmptyString
  | String c s' => if isspace c then lstrip s' else s
  end.

Fixpoint rstrip (s : string) : string :=
  match s with
  | EmptyString => EmptyString
  | String c s' =>
      match rstrip s' with
      | EmptyString => if isspace c then EmptyString else String c EmptyString
      | r => String c r
      end
  end.

(** [s.strip()] *)
Definition strip (s : string) : string := rstrip (lstrip s).

(** [s.startswith(p)] *)
Definition startswith (s p : string) : bool := String.prefix p s.

(** [s[n:]] *)
Fixpoint drop (n : nat) (s : string) : string :=
  match n, s with
  | O, _ => s
  | S n', String _ s' => drop n' s'
  | S _, EmptyString => EmptyString
  end.

(** [s] cut at the first [sep], if there is one. *)
Fixpoint cut (sep : ascii) (s : string) : option (string * string) :=
  match s with
  | EmptyString => None
  | String c s' =>
      if Ascii.eqb c sep then Some (EmptyString, s')
      else match cut sep s' with
           | Some (a, b) => Some (String c a, b)
           | None => None
           end
  end.

(** [s.split(sep, maxsplit)] for a separator of one character. *)
Fixpoint split (sep : ascii) (maxsplit : nat) (s : string) : list string :=
  match maxsplit with
  | O => [s]
  | S n =>
      match cut sep s with
      | Some (a, b) => a :: split sep n b
      | None => [s]
      end
  end.

Fixpoint join_strs (sep : string) (xs : list string) : string :=
  match xs with
  | [] => ""
  | [x] => x
  | x :: rest => x ++ sep ++ join_strs sep rest
  end.

Fixpoint chars (s : string) : list string :=
  match s with
  | EmptyString => []
  | String c s' => String c EmptyString :: chars s'
  end.

Fixpoint strs_of (xs : list json) : option (list string) :=
  match xs with
  | [] => Some []
  | JStr s :: rest =>
      match strs_of rest with
      | Some ss => Some (s :: ss)
      | None => None
      end
  | _ :: _ => None
  end.

(** [sep.join(v)]: [v] has to be an iterable of strings, else
    [TypeError], here [None]. *)
Definition join (sep : string) (v : json) : option string :=
  match v with
  | JList xs =>
      match strs_of xs with
      | Some ss => Some (join_strs sep ss)
      | None => None
      end
  | JStr s => Some (join_strs sep (chars s))
  | JDict items => Some (join_strs sep (map fst items))
  | _ => None
  end.

Definition newline : string := String "010"%char EmptyString.

(** [s.isascii()] *)
Fixpoint isascii (s : string) : bool :=
  match s with
  | EmptyString => true
  | String c s' => (nat_of_ascii c <? 128)%nat && isascii s'
  end.

(** [c in s] *)
Fixpoint has_char (c : ascii) (s : string) : bool :=
  match s with
  | EmptyString => false
  | String c' s' => Ascii.eqb c' c || has_char c s'
  end.

End PyStr.

(** ** The command-line agent

    The class [Agent] of [src/internal/agent.py].  A message handed to
    [json.dumps] and sent is recorded in [outbox], a printed text in
    [stdout].  Each coroutine is run on its own: the lines typed for
    the one, the frames received for the other. *)

Module Client.

(** The states of a connection of the [websockets] library once it is
    established: [send] works in [Open] only, [closed] holds in [Closed]
    only. *)
Inductive socket : Type := Open | Closing | Closed.

Record agent : Type := mkAgent {
  agent_id : string;
  auth_token : string;
  websocket : option socket;
  is_connected : bool;
  online_agents : json;
  outbox : list (list (string * string));
  stdout : list string
}.

(** agent.py, lines 22-29 *)
Definition init (agent_id auth_token : string) : agent :=
  mkAgent agent_id auth_token None false (JList []) [] [].

Definition set_is_connected (b : bool) (self : agent) : agent :=
  mkAgent self.(agent_id) self.(auth_token) self.(websocket) b
          self.(online_agents) self.(outbox) self.(stdout).

Definition set_websocket (w : option socket) (self : agent) : agent :=
  mkAgent self.(agent_id) self.(auth_token) w self.(is_connected)
          self.(online_agents) self.(outbox) self.(stdout).

Definition set_online_agents (v : json) (self : agent) : agent :=
  mkAgent self.(agent_id) self.(auth_token) self.(websocket) self.(is_connected)
          v self.(outbox) self.(stdout).

Definition print (text : string) (self : agent) : agent :=
  mkAgent self.(agent_id) self.(auth_token) self.(websocket) self.(is_connected)
          self.(online_agents) self.(outbox) (self.(stdout) ++ [text]).

(** [not self.is_connected or not self.websocket or self.websocket.closed] *)
Definition unusable (self : agent) : bool :=
  negb self.(is_connected)
  || match self.(websocket) with
     | None => true
     | Some Closed => true
     | Some _ => false
     end.

(** [try: await self.websocket.send(json.dumps(message))]
    [except Exception: self.is_connected = False] *)
Definition transmit (message : list (string * string)) (self : agent) : agent :=
  match self.(websocket) with
  | Some Open =>
      mkAgent self.(agent_id) self.(auth_token) self.(websocket)
              self.(is_connected) self.(online_agents)
              (self.(outbox) ++ [message]) self.(stdout)
  | _ => set_is_connected false self
  end.

(** agent.py, lines 78-95 *)
Definition send_message (receiver_id content : string) (self : agent) : agent :=
  if unusable self then self
  else transmit (Agent.direct_message self.(agent_id) receiver_id content) self.

(** agent.py, lines 97-113 *)
Definition broadcast_message (content : string) (self : agent) : agent :=
  if unusable self then self
  else transmit (Agent.broadcast_message self.(agent_id) content) self.

(** agent.py, lines 115-130 *)
Definition request_online_agents (self : agent) : agent :=
  if unusable self then self
  else transmit (Agent.list_request self.(agent_id)) self.

Definition usage_broadcast : string := "Usage: /broadcast <message>".
Definition usage_msg : string := "Usage: /msg <target_id> <message>".
Definition unknown_command : string :=
  "Unknown command. Use /msg <target_id> <message> or /broadcast <message> or /list.".

(** agent.py, lines 186-207: the branches of the loop body after the
    test for [exit]. *)
Definition command (user_input : string) (self : agent) : agent :=
  if PyStr.lower user_input =? "/list" then
    request_online_agents self
  else if PyStr.startswith (PyStr.lower user_input) "/broadcast " then
    let content := PyStr.strip (PyStr.drop (String.length "/broadcast ") user_input) in
    if negb (content =? "") then broadcast_message content self
    else print usage_broadcast self
  else if PyStr.startswith (PyStr.lower user_input) "/msg " then
    match PyStr.split " "%char 2 user_input with
    | [_; target_id; rest] =>
        let content := PyStr.strip rest in
        if negb (target_id =? "") && negb (content =? "")
        then send_message target_id content self
        else print usage_msg self
    | _ => print usage_msg self
    end
  else if negb (user_input =? "") then
    print unknown_command self
  else self.

(** agent.py, lines 181-213: the [while] loop over the lines typed, the
    end of the input raising [EOFError]. *)
Fixpoint cli_loop (lines : list string) (self : agent) : agent :=
  if negb self.(is_connected) then self
  else match lines with
       | [] => self
       | user_input :: rest =>
           if PyStr.lower user_input =? "exit" then self
           else cli_loop rest (command user_input self)
       end.

(** agent.py, lines 175-214 *)
Definition _send_cli_messages_task (lines : list string) (self : agent) : agent :=
  cli_loop lines
    (print ("You are '" ++ self.(agent_id)
            ++ "'. Commands: /list, /broadcast <message>, /msg <target_id> <message>, exit")
           self).

Section Receiving.

Variable json_loads : string -> option json.
Variable str_of : json -> string.

(** [json.loads] of a received frame; it gives back the object that
    [json.dumps] was given on the server. *)
Definition loads_frame (frame : wire) : option json :=
  match frame with
  | Verbatim text => json_loads text
  | Dumps obj => Some obj
  end.

(** [message.get(k, default)] *)
Definition get_default (items : list (string * json)) (k : string)
           (default : json) : json :=
  match find (fun kv => fst kv =? k) items with
  | Some (_, v) => v
  | None => default
  end.

(** agent.py, lines 139-164: one iteration of the receive loop; what the
    two inner [except] clauses catch is logged only. *)
Definition on_frame (self : agent) (frame : wire) : agent :=
  match loads_frame frame with
  | Some (JDict message) =>
      let message_type := field message "type" in
      if py_eq message_type (JStr "AGENT_MESSAGE") then
        print (PyStr.newline ++ "[DM from " ++ str_of (field message "sender_id")
               ++ "]: " ++ str_of (field message "content")
               ++ PyStr.newline ++ "> ") self
      else if py_eq message_type (JStr "BROADCAST_MESSAGE") then
        print (PyStr.newline ++ "[BROADCAST from "
               ++ str_of (field message "sender_id")
               ++ "]: " ++ str_of (field message "content")
               ++ PyStr.newline ++ "> ") self
      else if py_eq message_type (JStr "LIST_AGENTS_RESPONSE") then
        let agents := get_default message "agents" (JList []) in
        let self := set_online_agents agents self in
        if truthy agents then
          match PyStr.join ", " agents with
          | Some names =>
              print (PyStr.newline ++ "[SERVER INFO]: Online Agents: " ++ names
                     ++ PyStr.newline ++ "> ") self
          | None => self
          end
        else
          print (PyStr.newline ++ "[SERVER INFO]: Online Agents: None"
                 ++ PyStr.newline ++ "> ") self
      else if py_eq message_type (JStr "SERVER_ERROR") then
        print (PyStr.newline ++ "[SERVER ERROR]: " ++ str_of (field message "content")
               ++ PyStr.newline ++ "> ") self
      else if py_eq message_type (JStr "SERVER_INFO") then
        print (PyStr.newline ++ "[SERVER INFO]: " ++ str_of (field message "content")
               ++ PyStr.newline ++ "> ") self
      else self
  | _ => self
  end.

(** agent.py, lines 132-173: the frames are handled in turn until the
    connection closes; the [finally] clause then clears [is_connected]. *)
Definition _receive_messages_task (frames : list wire) (self : agent) : agent :=
  set_is_connected false (fold_left on_frame frames self).

(** agent.py, lines 31-67: the [try] block of [connect].  [opened] tells
    whether [websockets.connect] returned a connection,
    [initial_response] is the frame [recv] returns, if the connection
    lasts that long.  The result is [None] when the block raises; what
    the [except] clauses of lines 69-76 make of that is left out. *)
Definition connect (opened : bool) (initial_response : option wire)
           (self : agent) : option (bool * agent) :=
  if negb opened then None
  else
    let self := set_is_connected true (set_websocket (Some Open) self) in
    let self :=
      mkAgent self.(agent_id) self.(auth_token) self.(websocket)
              self.(is_connected) self.(online_agents)
              (self.(outbox)
               ++ [Agent.registration_message self.(agent_id) self.(auth_token)])
              self.(stdout) in
    match initial_response with
    | None => None
    | Some frame =>
        match loads_frame frame with
        | Some (JDict initial_response) =>
            if py_eq (field initial_response "type") (JStr "SERVER_INFO") then
              Some (true, self)
            else
              Some (false,
                    set_is_connected false (set_websocket (Some Closed) self))
        | _ => None
        end
    end.

End Receiving.

(** A text that is not empty and that [strip] leaves as it is. *)
Definition stripped (s : string) : Prop := s <> "" /\ PyStr.strip s = s.

(** The messages the command loop of the agent [id] can send. *)
Definition cli_message (id : string) (m : list (string * string)) : Prop :=
  m = Agent.list_request id
  \/ (exists content, m = Agent.broadcast_message id content /\ stripped content)
  \/ (exists target_id content,
         m = Agent.direct_message id target_id content
         /\ target_id <> ""
         /\ PyStr.has_char " "%char target_id = false
         /\ stripped content).

End Client.

(** ** Equality of keys and the registry operations *)

Lemma atom_eqb_eq (a b : atom) : atom_eqb a b = true <-> a = b.
Proof.
  destruct a, b; simpl; split; intro H; try discriminate; try reflexivity.
  - apply Z.eqb_eq in H. now subst.
  - inversion H. apply Z.eqb_refl.
  - apply String.eqb_eq in H. now subst.
  - inversion H. apply String.eqb_refl.
Qed.

Lemma py_eq_true (a b : json) :
  py_eq a b = true <-> exists x, atom_of a = Some x /\ atom_of b = Some x.
Proof.
  unfold py_eq. split.
  - destruct (atom_of a) as [x|], (atom_of b) as [y|]; try discriminate.
    intro H. apply atom_eqb_eq in H. subst. now exists y.
  - intros [x [-> ->]]. now apply atom_eqb_eq.
Qed.

Lemma py_eq_JStr (v : json) (s : string) : py_eq v (JStr s) = true <-> v = JStr s.
Proof.
  split.
  - intro H. apply py_eq_true in H. destruct H as [x [Hv Hs]].
    simpl in Hs. inversion Hs. subst x.
    destruct v as [|[]|n|t|xs|items]; simpl in Hv; try discriminate.
    now inversion Hv.
  - intros ->. apply py_eq_true. now exists (AStr s).
Qed.

Lemma py_eq_sym (a b : json) : py_eq a b = py_eq b a.
Proof.
  unfold py_eq. destruct (atom_of a) as [x|], (atom_of b) as [y|]; try reflexivity.
  destruct (atom_eqb x y) eqn:E.
  - apply atom_eqb_eq in E. subst. symmetry. now apply atom_eqb_eq.
  - destruct (atom_eqb y x) eqn:E'; [|reflexivity].
    apply atom_eqb_eq in E'. subst.
    assert (atom_eqb x x = true) by now apply atom_eqb_eq. congruence.
Qed.

Lemma py_eq_congr (a b c : json) : py_eq a b = true -> py_eq c a = py_eq c b.
Proof.
  intro H. apply py_eq_true in H. destruct H as [x [Ha Hb]].
  unfold py_eq. now rewrite Ha, Hb.
Qed.

Lemma py_eq_hashable (a b : json) : py_eq a b = true -> atom_of b <> None.
Proof.
  intro H. apply py_eq_true in H. destruct H as [x [_ Hb]]. congruence.
Qed.

Module RegistryFacts.

Import Registry.

Lemma lookup_congr (d : t) (k k' : json) :
  py_eq k k' = true -> lookup d k = lookup d k'.
Proof.
  intro H. induction d as [|[k0 w] d IH]; simpl; [reflexivity|].
  rewrite (py_eq_congr _ _ k0 H). now rewrite IH.
Qed.

Lemma lookup_hashable (d : t) (k : json) (w : ws) :
  lookup d k = Some w -> atom_of k <> None.
Proof.
  induction d as [|[k0 w0] d IH]; simpl; [discriminate|].
  destruct (py_eq k0 k) eqn:E; [|exact IH].
  intros _. now apply py_eq_hashable in E.
Qed.

Lemma delitem_absent (d : t) (k : json) : lookup d k = None -> delitem d k = d.
Proof.
  induction d as [|[k0 w] d IH]; simpl; [reflexivity|].
  destruct (py_eq k0 k); [discriminate|]. intro H. now rewrite IH.
Qed.

Lemma lookup_delitem_other (d : t) (k k' : json) :
  lookup d k' = None -> lookup (delitem d k) k' = None.
Proof.
  induction d as [|[k0 w] d IH]; simpl; [reflexivity|].
  destruct (py_eq k0 k') eqn:E; [discriminate|]. intro H.
  destruct (py_eq k0 k); [exact H|]. simpl. rewrite E. now apply IH.
Qed.

Lemma lookup_delitem_same (d : t) (k : json) :
  wf d -> lookup (delitem d k) k = None.
Proof.
  induction d as [|[k0 w] d IH]; simpl; [reflexivity|].
  intros [_ [Hfresh Hwf]]. destruct (py_eq k0 k) eqn:E.
  - now rewrite <- (lookup_congr d k0 k E).
  - simpl. rewrite E. now apply IH.
Qed.

Lemma wf_delitem (d : t) (k : json) : wf d -> wf (delitem d k).
Proof.
  induction d as [|[k0 w] d IH]; simpl; [trivial|].
  intros [Hh [Hfresh Hwf]]. destruct (py_eq k0 k); [exact Hwf|].
  simpl. repeat split; [exact Hh | now apply lookup_delitem_other | now apply IH].
Qed.

Lemma setitem_absent (d : t) (k : json) (w : ws) :
  lookup d k = None -> setitem d k w = (d ++ [(k, w)])%list.
Proof.
  induction d as [|[k0 w0] d IH]; simpl; [reflexivity|].
  destruct (py_eq k0 k); [discriminate|]. intro H. now rewrite IH.
Qed.

Lemma lookup_app_none (d : t) (k k' : json) (w : ws) :
  lookup d k' = None -> py_eq k k' = false -> lookup (d ++ [(k, w)])%list k' = None.
Proof.
  induction d as [|[k0 w0] d IH]; simpl; intros H E.
  - now rewrite E.
  - destruct (py_eq k0 k'); [discriminate|]. now apply IH.
Qed.

Lemma lookup_none_py_eq (d : t) (k k' : json) (w : ws) :
  lookup d k = None -> In (k', w) d -> py_eq k' k = false.
Proof.
  induction d as [|[k0 w0] d IH]; simpl; [tauto|].
  destruct (py_eq k0 k) eqn:E; [discriminate|].
  intros H [Heq | Hin]; [inversion Heq; now subst | now apply IH].
Qed.

Lemma wf_app_fresh (d : t) (k : json) (w : ws) :
  wf d -> atom_of k <> None -> lookup d k = None -> wf (d ++ [(k, w)])%list.
Proof.
  induction d as [|[k0 w0] d IH]; simpl; intros Hwf Hh Hk.
  - tauto.
  - destruct Hwf as [Hh0 [Hfresh Hwf]].
    destruct (py_eq k0 k) eqn:E; [discriminate|].
    repeat split; [exact Hh0 | | now apply IH].
    apply lookup_app_none; [exact Hfresh|]. now rewrite py_eq_sym.
Qed.

Lemma lookup_In (d : t) (k : json) (w : ws) : lookup d k = Some w -> exists k', In (k', w) d /\ py_eq k' k = true.
Proof.
  induction d as [|[k0 w0] d IH]; simpl; [discriminate|].
  destruct (py_eq k0 k) eqn:E.
  - intro H. inversion H. subst. exists k0. auto.
  - intro H. destruct (IH H) as [k' [Hin Hk]]. exists k'. auto.
Qed.

(** In a dictionary each key is held once, and only keys are held. *)
Lemma occurrences_keys (d : t) (k : json) :
  wf d ->
  occurrences k (keys d) = match lookup d k with Some _ => 1 | None => 0 end.
Proof.
  unfold occurrences, keys.
  induction d as [|[k0 w] d IH]; simpl; [reflexivity|].
  intros [_ [Hfresh Hwf]]. destruct (py_eq k0 k) eqn:E.
  - simpl. rewrite (IH Hwf). now rewrite <- (lookup_congr d k0 k E), Hfresh.
  - now apply IH.
Qed.

End RegistryFacts.

(** ** Computations that only send *)

(** [c] changes nothing but the trace of delivered messages. *)
Definition only_sends {A} (c : M A) : Prop :=
  forall st, exists l, snd (c st) = deliver st l.

Lemma deliver_nil (st : world) : deliver st [] = st.
Proof. destruct st. unfold deliver. simpl. now rewrite app_nil_r. Qed.

Lemma deliver_deliver (st : world) (l l' : list (ws * wire)) :
  deliver (deliver st l) l' = deliver st (l ++ l').
Proof. unfold deliver. simpl. now rewrite app_assoc. Qed.

Lemma link_deliver (st : world) (l : list (ws * wire)) (w : ws) :
  link (deliver st l) w = link st w.
Proof. reflexivity. Qed.

Lemma send_up (w : ws) (m : wire) (st : world) :
  link st w = None -> send w m st = (Ret tt, deliver st [(w, m)]).
Proof. unfold send. now intros ->. Qed.

Lemma send_down (w : ws) (m : wire) (st : world) (c : closing) :
  link st w = Some c -> send w m st = (Raise (ConnectionClosed c), st).
Proof. unfold send. now intros ->. Qed.

Lemma only_sends_ret {A} (a : A) : only_sends (ret a).
Proof. intro st. exists []. simpl. now rewrite deliver_nil. Qed.

Lemma only_sends_raise {A} (e : exn) : only_sends (@raise A e).
Proof. intro st. exists []. simpl. now rewrite deliver_nil. Qed.

Lemma only_sends_bind {A B} (c : M A) (k : A -> M B) :
  only_sends c -> (forall a, only_sends (k a)) -> only_sends (bind c k).
Proof.
  intros Hc Hk st. unfold bind. destruct (Hc st) as [l Hl].
  destruct (c st) as [[a|e] st1]; simpl in Hl; subst st1.
  - destruct (Hk a (deliver st l)) as [l' Hl']. exists (l ++ l')%list.
    now rewrite Hl', deliver_deliver.
  - now exists l.
Qed.

Lemma only_sends_try {A} (c : M A) (h : exn -> M A) :
  only_sends c -> (forall e, only_sends (h e)) -> only_sends (try_except c h).
Proof.
  intros Hc Hh st. unfold try_except. destruct (Hc st) as [l Hl].
  destruct (c st) as [[a|e] st1]; simpl in Hl; subst st1.
  - now exists l.
  - destruct (Hh e (deliver st l)) as [l' Hl']. exists (l ++ l')%list.
    now rewrite Hl', deliver_deliver.
Qed.

Lemma only_sends_send (w : ws) (m : wire) : only_sends (send w m).
Proof.
  intro st. unfold send. destruct (link st w).
  - exists []. simpl. now rewrite deliver_nil.
  - now exists [(w, m)].
Qed.

Lemma only_sends_contains (k : json) : only_sends (contains k).
Proof.
  intro st. exists []. unfold contains.
  destruct (atom_of k); simpl; now rewrite deliver_nil.
Qed.

Lemma only_sends_getitem (k : json) : only_sends (getitem k).
Proof.
  intro st. exists []. unfold getitem.
  destruct (atom_of k); [destruct (Registry.lookup _ _)|]; simpl;
    now rewrite deliver_nil.
Qed.

Lemma only_sends_get (obj : json) (k : string) : only_sends (get obj k).
Proof.
  destruct obj; simpl; first [apply only_sends_ret | apply only_sends_raise].
Qed.

Create HintDb sends.
#[local] Hint Resolve only_sends_ret only_sends_raise only_sends_send
  only_sends_contains only_sends_getitem only_sends_get : sends.

Lemma only_sends_broadcast (items : list (json * ws)) (sender_id : json)
      (message_str : string) :
  only_sends (broadcast items sender_id message_str).
Proof.
  induction items as [|[k w] items IH]; simpl; [auto with sends|].
  apply only_sends_bind; [|intros _; exact IH].
  destruct (negb (py_eq k sender_id)); [|auto with sends].
  apply only_sends_try; auto with sends.
Qed.

(** ** Idempotence of [unregister_agent] *)

(** C8: for a hashable identifier [A] and a well-formed dictionary,
    [unregister_agent A] returns normally, running it twice in a row
    leaves the same state as running it once, and when [A] is absent it
    leaves the state as it was. *)
Theorem unregister_agent_idempotent (A : json) (st : world) :
  atom_of A <> None ->
  Registry.wf st.(CONNECTED_AGENTS) ->
  fst (unregister_agent A st) = Ret tt
  /\ (unregister_agent A ;; unregister_agent A) st = unregister_agent A st
  /\ (Registry.lookup st.(CONNECTED_AGENTS) A = None ->
      unregister_agent A st = (Ret tt, st)).
Proof.
  intros Hh Hwf. unfold unregister_agent, bind, contains.
  destruct (atom_of A) as [a|] eqn:Ha; [clear Hh|congruence].
  destruct (Registry.lookup (CONNECTED_AGENTS st) A) as [w|] eqn:Hl.
  - simpl. rewrite (RegistryFacts.lookup_delitem_same _ A Hwf).
    repeat split. discriminate.
  - simpl. rewrite Hl. repeat split.
Qed.

(** ** The receive loop *)

Section Routing.

Variable json_loads : string -> option json.
Variable str_of : json -> string.

Lemma only_sends_dispatch (websocket : ws) (message_str : string) :
  only_sends (dispatch json_loads str_of websocket message_str).
Proof.
  unfold dispatch, agents.
  apply only_sends_bind;
    [unfold loads; destruct (json_loads message_str); auto with sends | intro].
  repeat (first
    [ apply only_sends_broadcast
    | progress auto with sends
    | apply only_sends_bind; [|intro]
    | match goal with |- only_sends (if ?b then _ else _) => destruct b end
    | intro st; exists []; simpl; now rewrite deliver_nil ]).
Qed.

Lemma only_sends_loop_body (websocket : ws) (message_str : string) :
  only_sends (loop_body json_loads str_of websocket message_str).
Proof.
  apply only_sends_try; [apply only_sends_dispatch|].
  intros []; auto with sends.
Qed.

Lemma only_sends_receive_loop (websocket : ws) (frames : list string) (c : closing) :
  only_sends (receive_loop json_loads str_of websocket frames c).
Proof.
  induction frames as [|m rest IH]; simpl.
  - destruct c; auto with sends.
  - apply only_sends_bind; [apply only_sends_loop_body | intros _; exact IH].
Qed.

(** Routing never writes to the dictionary. *)
Lemma receive_loop_agents (websocket : ws) (frames : list string) (c : closing)
      (st : world) :
  CONNECTED_AGENTS (snd (receive_loop json_loads str_of websocket frames c st))
  = CONNECTED_AGENTS st.
Proof.
  destruct (only_sends_receive_loop websocket frames c st) as [l ->]. reflexivity.
Qed.

Lemma receive_loop_cons (websocket : ws) (message_str : string)
      (rest : list string) (c : closing) (st st' : world) :
  loop_body json_loads str_of websocket message_str st = (Ret tt, st') ->
  receive_loop json_loads str_of websocket (message_str :: rest) c st
  = receive_loop json_loads str_of websocket rest c st'.
Proof. intro H. simpl. unfold bind. now rewrite H. Qed.

Lemma broadcast_reaches (items : list (json * ws)) (sender_id : json)
      (message_str : string) (st : world) :
  broadcast items sender_id message_str st
  = (Ret tt,
     deliver st
       (map (fun kw => (snd kw, Verbatim message_str))
            (filter (fun kw => negb (py_eq (fst kw) sender_id)
                               && match link st (snd kw) with
                                  | None => true
                                  | Some _ => false
                                  end) items))).
Proof.
  revert st. induction items as [|[k w] items IH]; intro st; simpl.
  - unfold ret. now rewrite deliver_nil.
  - unfold bind at 1. destruct (py_eq k sender_id); simpl.
    + apply IH.
    + unfold try_except. destruct (link st w) as [c|] eqn:Hl.
      * rewrite (send_down _ _ _ _ Hl). apply IH.
      * rewrite (send_up _ _ _ Hl), IH, deliver_deliver. reflexivity.
Qed.

(** C10: an [AGENT_REGISTER] message that arrives in the receive loop
    falls through to the last branch: the sender gets one [SERVER_ERROR]
    for an unknown type, the iteration ends normally so the loop goes on
    to the next message, and no run of the receive loop, whatever the
    messages, changes the dictionary. *)
Theorem register_after_handshake_is_unknown
        (websocket : ws) (message_str : string) (items : list (string * json))
        (st : world) :
  json_loads message_str = Some (JDict items) ->
  field items "type" = JStr "AGENT_REGISTER" ->
  link st websocket = None ->
  let reply :=
    SERVER_ERROR ("Unknown message type '" ++ str_of (JStr "AGENT_REGISTER") ++ "'.") in
  loop_body json_loads str_of websocket message_str st
  = (Ret tt, deliver st [(websocket, reply)])
  /\ is_server_error reply = true
  /\ (forall rest c,
        receive_loop json_loads str_of websocket (message_str :: rest) c st
        = receive_loop json_loads str_of websocket rest c
                       (deliver st [(websocket, reply)]))
  /\ (forall frames c,
        CONNECTED_AGENTS
          (snd (receive_loop json_loads str_of websocket frames c st))
        = CONNECTED_AGENTS st).
Proof.
  intros Hdec Hty Hup reply.
  assert (Hstep : loop_body json_loads str_of websocket message_str st
                  = (Ret tt, deliver st [(websocket, reply)])).
  { unfold loop_body, try_except, dispatch, bind, loads. rewrite Hdec. simpl.
    rewrite Hty. simpl. now rewrite send_up. }
  repeat split.
  - exact Hstep.
  - intros rest c. now apply receive_loop_cons.
  - intros frames c. apply receive_loop_agents.
Qed.

(** C7: a message of the receive loop that does not decode, or that
    decodes to an object whose type is none of the three routed tags, is
    answered with one [SERVER_ERROR] on the same connection; the
    iteration ends normally, the loop goes on with the next message, and
    the dictionary is as before. *)
Theorem unroutable_message_is_reported
        (websocket : ws) (message_str : string) (st : world) :
  (json_loads message_str = None
   \/ exists items, json_loads message_str = Some (JDict items)
                    /\ routed_tag (field items "type") = false) ->
  link st websocket = None ->
  let reply :=
    SERVER_ERROR
      match json_loads message_str with
      | Some (JDict items) =>
          "Unknown message type '" ++ str_of (field items "type") ++ "'."
      | _ => "Invalid JSON format received."
      end in
  loop_body json_loads str_of websocket message_str st
  = (Ret tt, deliver st [(websocket, reply)])
  /\ is_server_error reply = true
  /\ CONNECTED_AGENTS (deliver st [(websocket, reply)]) = CONNECTED_AGENTS st
  /\ (forall rest c,
        receive_loop json_loads str_of websocket (message_str :: rest) c st
        = receive_loop json_loads str_of websocket rest c
                       (deliver st [(websocket, reply)])).
Proof.
  intros Hbad Hup reply.
  assert (Hstep : loop_body json_loads str_of websocket message_str st
                  = (Ret tt, deliver st [(websocket, reply)])).
  { unfold reply, loop_body, try_except, dispatch, bind, loads.
    destruct Hbad as [Hnone | [items [Hdec Htag]]].
    - rewrite Hnone. simpl. now rewrite send_up.
    - rewrite Hdec. simpl. unfold routed_tag in Htag.
      apply orb_false_elim in Htag. destruct Htag as [Htag Hlist].
      apply orb_false_elim in Htag. destruct Htag as [Hmsg Hbc].
      rewrite Hmsg, Hbc, Hlist. now rewrite send_up. }
  repeat split.
  - exact Hstep.
  - intros rest c. now apply receive_loop_cons.
Qed.

Lemma all_cons (v : json) (vs : list json) : all (v :: vs) = truthy v && all vs.
Proof. reflexivity. Qed.

(** The [AGENT_MESSAGE] branch, for a message whose three fields are
    all true: what the membership test, the lookup and the send amount
    to.  A receiver whose connection refuses the send ends in the
    [except Exception] clause of the loop body. *)
Lemma direct_step (websocket : ws) (message_str : string)
      (items : list (string * json)) (st : world) :
  json_loads message_str = Some (JDict items) ->
  field items "type" = JStr "AGENT_MESSAGE" ->
  all [field items "sender_id"; field items "receiver_id"; field items "content"]
  = true ->
  loop_body json_loads str_of websocket message_str st
  = match atom_of (field items "receiver_id"),
          Registry.lookup st.(CONNECTED_AGENTS) (field items "receiver_id") with
    | Some _, Some receiver_websocket =>
        match link st receiver_websocket with
        | None => (Ret tt, deliver st [(receiver_websocket, Verbatim message_str)])
        | Some _ =>
            send websocket
                 (SERVER_ERROR "Internal server error while processing your message.")
                 st
        end
    | Some _, None =>
        send websocket
             (SERVER_ERROR ("Agent '" ++ str_of (field items "receiver_id")
                            ++ "' is not online. Message not delivered."))
             st
    | None, _ =>
        send websocket
             (SERVER_ERROR "Internal server error while processing your message.")
             st
    end.
Proof.
  intros Hdec Hty Hall.
  unfold loop_body, dispatch, loads. rewrite Hdec.
  cbv [try_except bind ret get]. rewrite Hty.
  change (py_eq (JStr "AGENT_MESSAGE") (JStr "AGENT_MESSAGE")) with true.
  rewrite Hall. cbv [negb contains getitem]. cbv beta iota.
  destruct (atom_of (field items "receiver_id")); [|reflexivity].
  destruct (Registry.lookup (CONNECTED_AGENTS st) (field items "receiver_id"))
    as [w|] eqn:Hl; cbv beta iota; rewrite ?Hl; cbv beta iota.
  - unfold send at 1. destruct (link st w); reflexivity.
  - unfold send. destruct (link st websocket) eqn:Hw; cbv beta iota;
      rewrite ?Hw; reflexivity.
Qed.

(** C9: a direct message whose [receiver_id] is the sender's own
    identifier [A], registered for this very connection, with a
    [content] that is true, is passed on as received to that same
    connection, and nothing else is sent. *)
Theorem direct_message_to_self_is_delivered
        (websocket : ws) (message_str : string) (items : list (string * json))
        (A : json) (st : world) :
  json_loads message_str = Some (JDict items) ->
  field items "type" = JStr "AGENT_MESSAGE" ->
  field items "sender_id" = A ->
  field items "receiver_id" = A ->
  truthy A = true ->
  truthy (field items "content") = true ->
  Registry.lookup st.(CONNECTED_AGENTS) A = Some websocket ->
  link st websocket = None ->
  loop_body json_loads str_of websocket message_str st
  = (Ret tt, deliver st [(websocket, Verbatim message_str)])
  /\ is_server_error (Verbatim message_str) = false.
Proof.
  intros Hdec Hty Hs Hr HA Hc Hreg Hup. split; [|reflexivity].
  rewrite (direct_step websocket message_str items st Hdec Hty).
  - rewrite Hr, Hreg, Hup.
    destruct (atom_of A) eqn:Ha;
      [reflexivity | now apply RegistryFacts.lookup_hashable in Hreg].
  - rewrite !all_cons, Hs, Hr, HA, Hc. reflexivity.
Qed.

(** C4, as amended: how a direct message is handled.  With an untrue
    [sender_id], [receiver_id] or [content] the sender gets one
    [SERVER_ERROR] and nothing is passed on.  Otherwise, when
    [receiver_id] is a key of the dictionary: if the connection held
    for it takes the send, the text received is passed on to that
    connection and the sender gets nothing; if that send raises,
    nothing is delivered and the sender gets one [SERVER_ERROR], the
    internal error of the [except Exception] clause.  When
    [receiver_id] is no key, nothing is passed on and the sender gets
    one [SERVER_ERROR]. *)
Theorem direct_message_routing
        (websocket : ws) (message_str : string) (items : list (string * json))
        (st : world) :
  json_loads message_str = Some (JDict items) ->
  field items "type" = JStr "AGENT_MESSAGE" ->
  link st websocket = None ->
  let sender_id := field items "sender_id" in
  let receiver_id := field items "receiver_id" in
  let content := field items "content" in
  loop_body json_loads str_of websocket message_str st
  = (Ret tt,
     deliver st
       (if negb (all [sender_id; receiver_id; content]) then
          [(websocket,
            SERVER_ERROR "Message missing sender_id, receiver_id, or content.")]
        else
          match Registry.lookup st.(CONNECTED_AGENTS) receiver_id with
          | Some receiver_websocket =>
              match link st receiver_websocket with
              | None => [(receiver_websocket, Verbatim message_str)]
              | Some _ =>
                  [(websocket,
                    SERVER_ERROR
                      "Internal server error while processing your message.")]
              end
          | None =>
              [(websocket,
                SERVER_ERROR
                  match atom_of receiver_id with
                  | Some _ => "Agent '" ++ str_of receiver_id
                              ++ "' is not online. Message not delivered."
                  | None => "Internal server error while processing your message."
                  end)]
          end)).
Proof.
  intros Hdec Hty Hup sender_id receiver_id content.
  destruct (all [sender_id; receiver_id; content]) eqn:Hall; simpl negb; cbv iota.
  - rewrite (direct_step websocket message_str items st Hdec Hty Hall).
    fold receiver_id.
    destruct (Registry.lookup (CONNECTED_AGENTS st) receiver_id) as [w|] eqn:Hl.
    + destruct (atom_of receiver_id) eqn:Ha.
      * destruct (link st w); [now rewrite send_up | reflexivity].
      * apply RegistryFacts.lookup_hashable in Hl. congruence.
    + destruct (atom_of receiver_id); now rewrite send_up.
  - unfold loop_body, dispatch, loads. rewrite Hdec.
    cbv [try_except bind ret get]. rewrite Hty.
    change (py_eq (JStr "AGENT_MESSAGE") (JStr "AGENT_MESSAGE")) with true.
    fold sender_id receiver_id content. rewrite Hall.
    cbv [negb]. cbv beta iota. now rewrite send_up.
Qed.


Lemma py_eq_refl (k : json) : atom_of k <> None -> py_eq k k = true.
Proof.
  intro H. apply py_eq_true. destruct (atom_of k) as [x|]; [now exists x | congruence].
Qed.

Lemma occurrences_absent (d : Registry.t) (k : json) (p : json * ws -> bool) :
  Registry.lookup d k = None -> occurrences k (map fst (filter p d)) = 0.
Proof.
  unfold occurrences. induction d as [|[k0 w0] d IH]; simpl; [reflexivity|].
  destruct (py_eq k0 k) eqn:E; [discriminate|]. intro H.
  destruct (p (k0, w0)); simpl; rewrite ?E; now apply IH.
Qed.

Lemma occurrences_filtered (d : Registry.t) (k : json) (w : ws)
      (p : json * ws -> bool) :
  Registry.wf d -> In (k, w) (filter p d) ->
  occurrences k (map fst (filter p d)) = 1.
Proof.
  induction d as [|[k0 w0] d IH]; simpl; [tauto|].
  intros [Hh [Hfresh Hwf]] Hin.
  assert (Htail : In (k, w) (filter p d) -> py_eq k0 k = false).
  { intro H. apply filter_In in H. destruct H as [H _].
    rewrite py_eq_sym. exact (RegistryFacts.lookup_none_py_eq d k0 k w Hfresh H). }
  destruct (p (k0, w0)).
  - destruct Hin as [Heq | Hin].
    + inversion Heq. subst k0 w0. unfold occurrences. simpl.
      rewrite (py_eq_refl k Hh). simpl. f_equal.
      exact (occurrences_absent d k p Hfresh).
    + unfold occurrences. simpl. rewrite (Htail Hin). now apply IH.
  - now apply IH.
Qed.

Lemma handle_unique (d : Registry.t) (k k' : json) (w : ws) :
  NoDup (map snd d) -> In (k, w) d -> In (k', w) d -> k = k'.
Proof.
  induction d as [|[k0 w0] d IH]; simpl; [tauto|].
  intros Hnd [H1 | H1] [H2 | H2]; inversion Hnd as [|? ? Hnotin Hnd']; subst.
  - congruence.
  - inversion H1. subst. exfalso. apply Hnotin.
    now apply (in_map snd) in H2.
  - inversion H2. subst. exfalso. apply Hnotin.
    now apply (in_map snd) in H1.
  - now apply IH.
Qed.

Lemma others_count (d : Registry.t) (k : json) :
  (List.length (filter (fun kw => negb (py_eq (fst kw) k)) d)
   + occurrences k (Registry.keys d) = List.length d)%nat.
Proof.
  unfold occurrences, Registry.keys.
  induction d as [|[k0 w0] d IH]; simpl; [reflexivity|].
  destruct (py_eq k0 k); simpl; lia.
Qed.

(** The broadcast branch when no other handler touches the dictionary
    during the sends.  With a [sender_id] and a [content]
    that are true, the text received is passed on, once each and in the
    order of the dictionary, to the connection of every entry whose key
    differs from [sender_id] and whose connection takes the send; a
    connection that refuses it is skipped and the ones after it are
    still served.  When [sender_id] is the identifier this connection is
    registered under, the connection itself gets nothing, and when every
    registered connection takes the send the number served is the
    number of entries less one.  With an untrue [sender_id] or [content]
    the sender gets one [SERVER_ERROR] and nothing is passed on. *)
Theorem broadcast_routing
        (websocket : ws) (message_str : string) (items : list (string * json))
        (st : world) :
  json_loads message_str = Some (JDict items) ->
  field items "type" = JStr "BROADCAST_MESSAGE" ->
  link st websocket = None ->
  Registry.wf st.(CONNECTED_AGENTS) ->
  NoDup (map snd st.(CONNECTED_AGENTS)) ->
  let sender_id := field items "sender_id" in
  let content := field items "content" in
  loop_body json_loads str_of websocket message_str st
  = (Ret tt,
     deliver st
       (if all [sender_id; content] then
          map (fun kw => (snd kw, Verbatim message_str)) (reached st sender_id)
        else
          [(websocket,
            SERVER_ERROR "Broadcast message missing sender_id or content.")]))
  /\ (forall k w,
        In (k, w) (reached st sender_id)
        <-> In (k, w) st.(CONNECTED_AGENTS)
            /\ py_eq k sender_id = false /\ link st w = None)
  /\ (forall k w,
        In (k, w) (reached st sender_id) ->
        occurrences k (map fst (reached st sender_id)) = 1)
  /\ (Registry.lookup st.(CONNECTED_AGENTS) sender_id = Some websocket ->
      ~ In websocket (map snd (reached st sender_id)))
  /\ (Registry.lookup st.(CONNECTED_AGENTS) sender_id = Some websocket ->
      (forall k w, In (k, w) st.(CONNECTED_AGENTS) -> link st w = None) ->
      List.length (reached st sender_id)
      = (List.length st.(CONNECTED_AGENTS) - 1)%nat).
Proof.
  intros Hdec Hty Hup Hwf Hnd sender_id content.
  assert (Hin : forall k w,
             In (k, w) (reached st sender_id)
             <-> In (k, w) st.(CONNECTED_AGENTS)
                 /\ py_eq k sender_id = false /\ link st w = None).
  { intros k w. unfold reached. rewrite filter_In. simpl.
    rewrite andb_true_iff, negb_true_iff.
    destruct (link st w); intuition congruence. }
  split; [|split; [exact Hin|split; [|split]]].
  - unfold loop_body, dispatch, loads. rewrite Hdec.
    cbv [try_except bind ret get agents]. rewrite Hty.
    change (py_eq (JStr "BROADCAST_MESSAGE") (JStr "AGENT_MESSAGE")) with false.
    change (py_eq (JStr "BROADCAST_MESSAGE") (JStr "BROADCAST_MESSAGE")) with true.
    fold sender_id content. cbv beta iota.
    destruct (all [sender_id; content]); cbv [negb]; cbv beta iota.
    + now rewrite broadcast_reaches.
    + now rewrite send_up.
  - intros k w H. now apply (occurrences_filtered _ k w).
  - intros Hreg Hself. apply in_map_iff in Hself.
    destruct Hself as [[k w] [Hw Hkw]]. simpl in Hw. subst w.
    apply Hin in Hkw. destruct Hkw as [Hkw [Hne _]].
    apply RegistryFacts.lookup_In in Hreg. destruct Hreg as [k' [Hk' Heq]].
    rewrite (handle_unique _ k k' websocket Hnd Hkw Hk') in Hne. congruence.
  - intros Hreg Hall.
    assert (Hsame : reached st sender_id
                    = filter (fun kw => negb (py_eq (fst kw) sender_id))
                             st.(CONNECTED_AGENTS)).
    { unfold reached. apply filter_ext_in. intros [k w] Hkw. simpl.
      rewrite (Hall k w Hkw). apply andb_true_r. }
    rewrite Hsame.
    pose proof (others_count st.(CONNECTED_AGENTS) sender_id) as Hcount.
    rewrite (RegistryFacts.occurrences_keys _ sender_id Hwf), Hreg in Hcount. lia.
Qed.

End Routing.

(** ** Registration and the end of a connection *)

Section Handshake.

Variable json_loads : string -> option json.
Variable str_of : json -> string.
Variable SHARED_SECRET : string.

(** Lines 61-74 in one equation: the three checks in their order, each
    refusal with its message and an untouched dictionary, and the
    registration that follows them. *)
Lemma validate_cases (websocket : ws) (agent_id auth_token : json) (st : world) :
  link st websocket = None ->
  validate str_of SHARED_SECRET websocket agent_id auth_token st
  = if negb (truthy agent_id) then
      (Ret Refused,
       deliver st [(websocket,
                    SERVER_ERROR "Registration failed: 'agent_id' is missing.")])
    else if negb (py_eq auth_token (JStr SHARED_SECRET)) then
      (Ret Refused,
       deliver st [(websocket, SERVER_ERROR "Authentication failed: Invalid token.")])
    else
      match atom_of agent_id with
      | None => (Raise TypeError, st)
      | Some _ =>
          match Registry.lookup st.(CONNECTED_AGENTS) agent_id with
          | Some _ =>
              (Ret Refused,
               deliver st
                 [(websocket,
                   SERVER_ERROR ("Agent ID '" ++ str_of agent_id
                                 ++ "' is already in use. Please choose a different ID."))])
          | None =>
              (Ret Accepted,
               mkWorld (st.(CONNECTED_AGENTS) ++ [(agent_id, websocket)])
                       st.(hung_up)
                       (st.(delivered)
                        ++ [(websocket,
                             SERVER_INFO ("Welcome, agent " ++ str_of agent_id
                                          ++ "! You are now online."))]))
          end
      end.
Proof.
  intro Hup. unfold validate.
  destruct (negb (truthy agent_id)).
  { unfold bind. now rewrite send_up. }
  destruct (negb (py_eq auth_token (JStr SHARED_SECRET))).
  { unfold bind. now rewrite send_up. }
  unfold bind at 1. unfold contains.
  destruct (atom_of agent_id); [|reflexivity].
  destruct (Registry.lookup (CONNECTED_AGENTS st) agent_id) eqn:Hl.
  - unfold bind. now rewrite send_up.
  - unfold register_agent, bind, with_agents, send. simpl.
    unfold link in *. simpl. rewrite Hup.
    now rewrite (RegistryFacts.setitem_absent _ _ _ Hl).
Qed.

(** The first part of the handler on an [AGENT_REGISTER] object. *)
Lemma handshake_register (websocket : ws) (auth_reg_message_str : string)
      (items : list (string * json)) (st : world) :
  json_loads auth_reg_message_str = Some (JDict items) ->
  field items "type" = JStr "AGENT_REGISTER" ->
  handshake json_loads str_of SHARED_SECRET websocket auth_reg_message_str st
  = let '(r, st1) :=
      validate str_of SHARED_SECRET websocket
               (field items "agent_id") (field items "auth_token") st in
    (field items "agent_id", r, st1).
Proof.
  intros Hdec Hty. unfold handshake. rewrite Hdec.
  cbv [get ret bind]. rewrite Hty.
  change (py_eq (JStr "AGENT_REGISTER") (JStr "AGENT_REGISTER")) with true.
  reflexivity.
Qed.

(** A first frame that does not decode: the exception reaches the
    [except Exception] clause of the outer [try], which logs; nothing is
    sent, and [agent_id] is still [None] in the [finally] clause. *)
Lemma first_frame_undecodable (websocket : ws) (first : string)
      (rest : list string) (c : closing) (st : world) :
  json_loads first = None ->
  handle_agent_connection json_loads str_of SHARED_SECRET websocket
                          (first :: rest) c st
  = (Ret tt, st).
Proof.
  intro Hdec. unfold handle_agent_connection, session, handshake.
  now rewrite Hdec.
Qed.

(** A first message that is an object of another type is answered. *)
Lemma first_frame_other_type (websocket : ws) (first : string)
      (items : list (string * json)) (rest : list string) (c : closing)
      (st : world) :
  json_loads first = Some (JDict items) ->
  py_eq (field items "type") (JStr "AGENT_REGISTER") = false ->
  link st websocket = None ->
  handle_agent_connection json_loads str_of SHARED_SECRET websocket
                          (first :: rest) c st
  = (Ret tt,
     deliver st
       [(websocket,
         SERVER_ERROR "Initial message must be an 'AGENT_REGISTER' type with auth_token.")]).
Proof.
  intros Hdec Hty Hup. unfold handle_agent_connection, session, handshake.
  rewrite Hdec. cbv [get ret]. rewrite Hty. unfold bind.
  now rewrite send_up.
Qed.

(** A refused registration: after the [return], the [finally] clause
    unregisters whatever [agent_id] the refused message named. *)
Lemma refused_registration (websocket : ws) (first : string)
      (items : list (string * json)) (rest : list string) (c : closing)
      (st st1 : world) :
  json_loads first = Some (JDict items) ->
  field items "type" = JStr "AGENT_REGISTER" ->
  validate str_of SHARED_SECRET websocket
           (field items "agent_id") (field items "auth_token") st
  = (Ret Refused, st1) ->
  handle_agent_connection json_loads str_of SHARED_SECRET websocket
                          (first :: rest) c st
  = if truthy (field items "agent_id")
    then unregister_agent (field items "agent_id") st1
    else (Ret tt, st1).
Proof.
  intros Hdec Hty Hval. unfold handle_agent_connection, session.
  rewrite (handshake_register websocket first items st Hdec Hty), Hval.
  reflexivity.
Qed.

(** The defect behind C1 and C3, in general: whichever of the token check
    and the in-use check refuses a registration that names a true,
    hashable [agent_id], that identifier is no key of the dictionary
    once the handler is done, whoever held it. *)
Lemma refused_registration_unregisters (websocket : ws) (first : string)
      (items : list (string * json)) (rest : list string) (c : closing)
      (st : world) :
  json_loads first = Some (JDict items) ->
  field items "type" = JStr "AGENT_REGISTER" ->
  truthy (field items "agent_id") = true ->
  atom_of (field items "agent_id") <> None ->
  (py_eq (field items "auth_token") (JStr SHARED_SECRET) = false
   \/ Registry.lookup st.(CONNECTED_AGENTS) (field items "agent_id") <> None) ->
  link st websocket = None ->
  Registry.wf st.(CONNECTED_AGENTS) ->
  let st' := snd (handle_agent_connection json_loads str_of SHARED_SECRET
                                          websocket (first :: rest) c st) in
  Registry.lookup st'.(CONNECTED_AGENTS) (field items "agent_id") = None
  /\ st'.(CONNECTED_AGENTS)
     = Registry.delitem st.(CONNECTED_AGENTS) (field items "agent_id").
Proof.
  intros Hdec Hty Htrue Hhash Hwhy Hup Hwf.
  set (agent_id := field items "agent_id") in *.
  assert (Hval : exists content,
             validate str_of SHARED_SECRET websocket agent_id
                      (field items "auth_token") st
             = (Ret Refused, deliver st [(websocket, SERVER_ERROR content)])).
  { rewrite (validate_cases websocket agent_id _ st Hup), Htrue. simpl negb.
    cbv iota.
    destruct (py_eq (field items "auth_token") (JStr SHARED_SECRET)); simpl negb;
      cbv iota; [|eauto].
    destruct (atom_of agent_id); [|congruence].
    destruct (Registry.lookup (CONNECTED_AGENTS st) agent_id); [eauto|].
    destruct Hwhy; congruence. }
  destruct Hval as [content Hval]. intro st'. subst st'.
  rewrite (refused_registration websocket first items rest c st _ Hdec Hty Hval).
  fold agent_id. rewrite Htrue.
  unfold unregister_agent, bind, contains.
  destruct (atom_of agent_id); [|congruence]. simpl.
  destruct (Registry.lookup (CONNECTED_AGENTS st) agent_id) eqn:Hl; simpl.
  - split; [now apply RegistryFacts.lookup_delitem_same | reflexivity].
  - split; [exact Hl | now rewrite RegistryFacts.delitem_absent].
Qed.

(** The dictionary stays well formed through registration. *)
Lemma validate_wf (websocket : ws) (agent_id auth_token : json) (st : world) :
  Registry.wf st.(CONNECTED_AGENTS) ->
  Registry.wf
    (snd (validate str_of SHARED_SECRET websocket agent_id auth_token st)).(CONNECTED_AGENTS).
Proof.
  intro Hwf. unfold validate.
  destruct (negb (truthy agent_id)).
  { unfold bind, send. now destruct (link st websocket). }
  destruct (negb (py_eq auth_token (JStr SHARED_SECRET))).
  { unfold bind, send. now destruct (link st websocket). }
  unfold bind at 1. unfold contains.
  destruct (atom_of agent_id) eqn:Ha; [|exact Hwf].
  destruct (Registry.lookup (CONNECTED_AGENTS st) agent_id) eqn:Hl.
  - unfold bind, send. now destruct (link st websocket).
  - assert (Hnew : Registry.wf (Registry.setitem (CONNECTED_AGENTS st) agent_id websocket)).
    { rewrite (RegistryFacts.setitem_absent _ _ _ Hl).
      apply RegistryFacts.wf_app_fresh; [exact Hwf | congruence | exact Hl]. }
    unfold register_agent, bind, with_agents, send, link. simpl.
    now destruct (find (fun p => Nat.eqb (fst p) websocket) (hung_up st))
      as [[]|].
Qed.

(** Every run of the handler keeps the dictionary well formed. *)
Lemma handle_agent_connection_wf (websocket : ws) (frames : list string)
      (c : closing) (st : world) :
  Registry.wf st.(CONNECTED_AGENTS) ->
  Registry.wf
    (snd (handle_agent_connection json_loads str_of SHARED_SECRET
                                  websocket frames c st)).(CONNECTED_AGENTS).
Proof.
  intro Hwf. unfold handle_agent_connection.
  assert (Hfin : forall agent_id st1,
             Registry.wf st1.(CONNECTED_AGENTS) ->
             Registry.wf
               (snd (if truthy agent_id then unregister_agent agent_id st1
                     else (Ret tt, st1))).(CONNECTED_AGENTS)).
  { intros agent_id st1 H1. destruct (truthy agent_id); [|exact H1].
    unfold unregister_agent, bind, contains.
    destruct (atom_of agent_id); [|exact H1].
    destruct (Registry.lookup _ _); simpl; [|exact H1].
    now apply RegistryFacts.wf_delitem. }
  assert (Hses : forall agent_id r st1,
             session json_loads str_of SHARED_SECRET websocket frames c st
             = (agent_id, r, st1) ->
             Registry.wf st1.(CONNECTED_AGENTS)).
  { unfold session. destruct frames as [|first rest].
    { intros ? ? ? H. inversion H. now subst. }
    assert (Hhs : Registry.wf
                    (snd (handshake json_loads str_of SHARED_SECRET
                                    websocket first st)).(CONNECTED_AGENTS)).
    { unfold handshake. destruct (json_loads first) as [[| | | | |items]|];
        try exact Hwf.
      cbv [get ret bind].
      destruct (py_eq (field items "type") (JStr "AGENT_REGISTER")).
      - pose proof (validate_wf websocket (field items "agent_id")
                                (field items "auth_token") st Hwf) as Hv.
        now destruct (validate _ _ _ _ _ st).
      - unfold send. now destruct (link st websocket). }
    destruct (handshake _ _ _ _ first st) as [[agent_id [[]|e]] st1];
      simpl in Hhs.
    - intros a r st2 H.
      pose proof (receive_loop_agents json_loads str_of websocket rest c st1) as Hl.
      destruct (receive_loop _ _ _ rest c st1) as [r2 st3]. simpl in Hl.
      inversion H. subst. now rewrite Hl.
    - intros a r st2 H. inversion H. now subst.
    - intros a r st2 H. inversion H. now subst. }
  destruct (session _ _ _ websocket frames c st) as [[agent_id r] st1] eqn:Hs.
  apply Hfin. exact (Hses agent_id r st1 eq_refl).
Qed.

End Handshake.

(** ** Concrete runs *)

(** The scenario of section 8 of the specification, the handlers of the
    three connections taking turns: alice and bob register, alice writes
    to bob, bob asks who is online, alice's connection closes, bob asks
    again, and a third connection tries to register as bob.  The trace
    is the one the specification gives; the dictionary, though, ends
    empty while bob is still connected. *)
Example relay_scenario :
  let hello who := dumps (Agent.registration_message who default_secret) in
  let welcome who :=
    SERVER_INFO ("Welcome, agent " ++ who ++ "! You are now online.") in
  let note := dumps (Agent.direct_message "alice" "bob" "hi") in
  let ask := dumps (Agent.list_request "bob") in
  let '(_, _, st1) :=
    handshake sample_loads str_scalar default_secret 1 (hello "alice")
              (mkWorld [] [] []) in
  let '(_, _, st2) :=
    handshake sample_loads str_scalar default_secret 2 (hello "bob") st1 in
  let st3 := snd (loop_body sample_loads str_scalar 1 note st2) in
  let st4 := snd (loop_body sample_loads str_scalar 2 ask st3) in
  let st5 := snd (unregister_agent (JStr "alice") st4) in
  let st6 := snd (loop_body sample_loads str_scalar 2 ask st5) in
  let st7 :=
    snd (handle_agent_connection sample_loads str_scalar default_secret 3
                                 [hello "bob"] ClosedOK st6) in
  st2.(CONNECTED_AGENTS) = [(JStr "alice", 1); (JStr "bob", 2)]
  /\ st7.(delivered)
     = [(1, welcome "alice");
        (2, welcome "bob");
        (2, Verbatim note);
        (2, LIST_AGENTS_RESPONSE [JStr "alice"; JStr "bob"] (JStr "bob"));
        (2, LIST_AGENTS_RESPONSE [JStr "bob"] (JStr "bob"));
        (3, SERVER_ERROR
              "Agent ID 'bob' is already in use. Please choose a different ID.")]
  /\ st6.(CONNECTED_AGENTS) = [(JStr "bob", 2)]
  /\ st7.(CONNECTED_AGENTS) = [].
Proof. vm_compute. repeat split. Qed.

(** C1, evaluated.  [bob] is registered on connection 2, which is open.
    Connection 4 asks to register as [bob], once with the right token
    and once with a wrong one.  Either way connection 4 gets its
    [SERVER_ERROR] and the handler ends, but its [finally] clause has
    unregistered [bob]: the dictionary no longer holds him although
    connection 2 is still open, and a direct message from alice to him
    is answered with "not online". *)
Theorem refused_registration_removes_owner :
  let run token :=
    handle_agent_connection sample_loads str_scalar default_secret 4
      [dumps (Agent.registration_message "bob" token)] ClosedOK online in
  let after content :=
    mkWorld [(JStr "alice", 1); (JStr "carol", 3)] [] [(4, SERVER_ERROR content)] in
  let in_use :=
    "Agent ID 'bob' is already in use. Please choose a different ID." in
  let bad_token := "Authentication failed: Invalid token." in
  Registry.lookup online.(CONNECTED_AGENTS) (JStr "bob") = Some 2
  /\ run default_secret = (Ret tt, after in_use)
  /\ run "guess" = (Ret tt, after bad_token)
  /\ link (after in_use) 2 = None
  /\ Registry.lookup (after in_use).(CONNECTED_AGENTS) (JStr "bob") = None
  /\ Registry.lookup (after bad_token).(CONNECTED_AGENTS) (JStr "bob") = None
  /\ loop_body sample_loads str_scalar 1
               (dumps (Agent.direct_message "alice" "bob" "hi")) (after in_use)
     = (Ret tt,
        deliver (after in_use)
          [(1, SERVER_ERROR "Agent 'bob' is not online. Message not delivered.")]).
Proof. vm_compute. repeat split. Qed.

(** C2, evaluated.  The first frame of connection 4 is not JSON.  The
    handler ends without having sent anything: the state is as before.
    The same text met in the receive loop of a registered connection is
    answered with a [SERVER_ERROR], and so is a first message that
    decodes but is of another type. *)
Theorem malformed_first_frame_gets_no_reply :
  sample_loads garbage = None
  /\ handle_agent_connection sample_loads str_scalar default_secret 4
       [garbage] ClosedOK online
     = (Ret tt, online)
  /\ loop_body sample_loads str_scalar 1 garbage online
     = (Ret tt,
        deliver online [(1, SERVER_ERROR "Invalid JSON format received.")])
  /\ handle_agent_connection sample_loads str_scalar default_secret 4
       [dumps (Agent.list_request "bob")] ClosedOK online
     = (Ret tt,
        deliver online
          [(4, SERVER_ERROR
                 "Initial message must be an 'AGENT_REGISTER' type with auth_token.")]).
Proof. vm_compute. repeat split. Qed.

(** C3, evaluated.  Connection 4 asks to register as [bob] with a wrong
    token while [bob] is online.  The checks of lines 61-68 refuse it
    with the invalid-token message and leave the dictionary alone, yet by
    the time the handler has ended the dictionary has lost [bob]. *)
Theorem invalid_token_refusal_changes_registry :
  let frame := dumps (Agent.registration_message "bob" "guess") in
  let reply := SERVER_ERROR "Authentication failed: Invalid token." in
  validate str_scalar default_secret 4 (JStr "bob") (JStr "guess") online
  = (Ret Refused, deliver online [(4, reply)])
  /\ handshake sample_loads str_scalar default_secret 4 frame online
     = (JStr "bob", Ret Refused, deliver online [(4, reply)])
  /\ handle_agent_connection sample_loads str_scalar default_secret 4
       [frame] ClosedOK online
     = (Ret tt,
        mkWorld [(JStr "alice", 1); (JStr "carol", 3)] [] [(4, reply)])
  /\ CONNECTED_AGENTS
       (snd (handle_agent_connection sample_loads str_scalar default_secret 4
               [frame] ClosedOK online))
     <> online.(CONNECTED_AGENTS).
Proof. vm_compute. repeat split. discriminate. Qed.

Lemma unregister_agent_idempotent_witness :
  fst (unregister_agent (JStr "bob") online) = Ret tt
  /\ (unregister_agent (JStr "bob") ;; unregister_agent (JStr "bob")) online
     = unregister_agent (JStr "bob") online
  /\ (Registry.lookup online.(CONNECTED_AGENTS) (JStr "bob") = None ->
      unregister_agent (JStr "bob") online = (Ret tt, online)).
Proof.
  apply (unregister_agent_idempotent (JStr "bob") online).
  - simpl. discriminate.
  - simpl. repeat split; discriminate.
Defined.

Lemma register_after_handshake_witness :
  loop_body sample_loads str_scalar 1
            (dumps (Agent.registration_message "alice" default_secret)) online
  = (Ret tt,
     deliver online
       [(1, SERVER_ERROR "Unknown message type 'AGENT_REGISTER'.")]).
Proof.
  exact (proj1 (register_after_handshake_is_unknown
                  sample_loads str_scalar 1
                  (dumps (Agent.registration_message "alice" default_secret))
                  (map (fun kv => (fst kv, JStr (snd kv)))
                       (Agent.registration_message "alice" default_secret))
                  online eq_refl eq_refl eq_refl)).
Defined.

Lemma unroutable_message_witness :
  loop_body sample_loads str_scalar 1 garbage online
  = (Ret tt, deliver online [(1, SERVER_ERROR "Invalid JSON format received.")]).
Proof.
  exact (proj1 (unroutable_message_is_reported
                  sample_loads str_scalar 1 garbage online
                  (or_introl eq_refl) eq_refl)).
Defined.

Lemma direct_message_to_self_witness :
  loop_body sample_loads str_scalar 1
            (dumps (Agent.direct_message "alice" "alice" "note to self")) online
  = (Ret tt,
     deliver online
       [(1, Verbatim (dumps (Agent.direct_message "alice" "alice" "note to self")))]).
Proof.
  exact (proj1 (direct_message_to_self_is_delivered
                  sample_loads str_scalar 1
                  (dumps (Agent.direct_message "alice" "alice" "note to self"))
                  (map (fun kv => (fst kv, JStr (snd kv)))
                       (Agent.direct_message "alice" "alice" "note to self"))
                  (JStr "alice") online
                  eq_refl eq_refl eq_refl eq_refl eq_refl eq_refl eq_refl eq_refl)).
Defined.

Lemma direct_message_routing_witness :
  loop_body sample_loads str_scalar 1
            (dumps (Agent.direct_message "alice" "bob" "hi")) online
  = (Ret tt,
     deliver online
       [(2, Verbatim (dumps (Agent.direct_message "alice" "bob" "hi")))]).
Proof.
  exact (direct_message_routing
           sample_loads str_scalar 1
           (dumps (Agent.direct_message "alice" "bob" "hi"))
           (map (fun kv => (fst kv, JStr (snd kv)))
                (Agent.direct_message "alice" "bob" "hi"))
           online eq_refl eq_refl eq_refl).
Defined.

(** C4, as the claim has it, fails where the receiver is registered but
    its connection refuses the send.  Carol is a key of the dictionary
    and her connection has dropped; alice's complete message to her is
    not passed on, and alice is sent a [SERVER_ERROR]. *)
Lemma direct_message_routing_counterexample :
  let text := dumps (Agent.direct_message "alice" "carol" "hi") in
  let run :=
    loop_body (decoder [Agent.direct_message "alice" "carol" "hi"]) str_scalar
              1 text carol_dropped in
  Registry.lookup carol_dropped.(CONNECTED_AGENTS) (JStr "carol") = Some 3
  /\ link carol_dropped 1 = None
  /\ all [JStr "alice"; JStr "carol"; JStr "hi"] = true
  /\ run
     = (Ret tt,
        deliver carol_dropped
          [(1, SERVER_ERROR "Internal server error while processing your message.")])
  /\ run <> (Ret tt, deliver carol_dropped [(3, Verbatim text)])
  /\ ~ In (3, Verbatim text) (snd run).(delivered)
  /\ existsb (fun p => Nat.eqb (fst p) 1 && is_server_error (snd p))
             (snd run).(delivered) = true.
Proof.
  vm_compute. repeat split; try discriminate. intros [H | []]. discriminate H.
Qed.


Lemma broadcast_routing_witness :
  loop_body sample_loads str_scalar 1
            (dumps (Agent.broadcast_message "alice" "hello all")) carol_dropped
  = (Ret tt,
     deliver carol_dropped
       [(2, Verbatim (dumps (Agent.broadcast_message "alice" "hello all")))]).
Proof.
  refine (proj1 (broadcast_routing
                   sample_loads str_scalar 1
                   (dumps (Agent.broadcast_message "alice" "hello all"))
                   (map (fun kv => (fst kv, JStr (snd kv)))
                        (Agent.broadcast_message "alice" "hello all"))
                   carol_dropped eq_refl eq_refl eq_refl _ _)).
  - simpl. repeat split; discriminate.
  - simpl. repeat constructor; simpl; intuition discriminate.
Defined.

(** ** More on the receive loop *)

Section RoutingFacts.

Variable json_loads : string -> option json.
Variable str_of : json -> string.

(** With the sender's connection open an iteration always ends normally:
    what the [try] block raises is answered on that connection. *)
Lemma loop_body_returns (websocket : ws) (message_str : string) (st : world) :
  link st websocket = None ->
  exists l, loop_body json_loads str_of websocket message_str st
            = (Ret tt, deliver st l).
Proof.
  intro Hup. unfold loop_body, try_except.
  destruct (only_sends_dispatch json_loads str_of websocket message_str st)
    as [l Hl].
  destruct (dispatch json_loads str_of websocket message_str st)
    as [[[]|e] st1]; simpl in Hl; subst st1.
  - now exists l.
  - exists (l ++ [(websocket,
                   SERVER_ERROR
                     match e with
                     | JSONDecodeError => "Invalid JSON format received."
                     | _ => "Internal server error while processing your message."
                     end)])%list.
    rewrite <- deliver_deliver.
    destruct e; now rewrite send_up.
Qed.

(** X1: while the connection of a registered session is open, no frame
    can end the session: every iteration of the receive loop returns
    normally, whatever the text, so the loop runs through all the frames
    and stops only when the connection closes, changing nothing but the
    trace of sent messages. *)
Theorem receive_loop_runs_to_the_close
        (websocket : ws) (frames : list string) (c : closing) (st : world) :
  link st websocket = None ->
  exists l,
    receive_loop json_loads str_of websocket frames c st
    = (match c with
       | ClosedOK => Ret tt
       | ClosedError => Raise (ConnectionClosed ClosedError)
       end,
       deliver st l).
Proof.
  revert st. induction frames as [|m rest IH]; intros st Hup; simpl.
  - exists []. rewrite deliver_nil. now destruct c.
  - destruct (loop_body_returns websocket m st Hup) as [l Hl].
    unfold bind. rewrite Hl.
    destruct (IH (deliver st l) Hup) as [l' Hl'].
    exists (l ++ l')%list. now rewrite Hl', deliver_deliver.
Qed.

(** X2: frames are handled one after the other, in the order received:
    running the loop over [frames1 ++ frames2] is running it over
    [frames1] and then, from the state reached, over [frames2]. *)
Theorem receive_loop_app
        (websocket : ws) (frames1 frames2 : list string) (c : closing)
        (st : world) :
  link st websocket = None ->
  receive_loop json_loads str_of websocket (frames1 ++ frames2) c st
  = receive_loop json_loads str_of websocket frames2 c
      (snd (receive_loop json_loads str_of websocket frames1 ClosedOK st)).
Proof.
  revert st. induction frames1 as [|m rest IH]; intros st Hup; simpl.
  - reflexivity.
  - destruct (loop_body_returns websocket m st Hup) as [l Hl].
    unfold bind. rewrite Hl. now apply IH.
Qed.

(** X3: a direct message for a registered receiver whose connection
    refuses the send is not delivered; the exception lands in the
    [except Exception] clause of the loop body, the sender gets one
    "Internal server error" reply and its session goes on. *)
Theorem direct_message_to_dropped_receiver
        (websocket receiver_websocket : ws) (message_str : string)
        (items : list (string * json)) (c : closing) (st : world) :
  json_loads message_str = Some (JDict items) ->
  field items "type" = JStr "AGENT_MESSAGE" ->
  all [field items "sender_id"; field items "receiver_id"; field items "content"]
  = true ->
  Registry.lookup st.(CONNECTED_AGENTS) (field items "receiver_id")
  = Some receiver_websocket ->
  link st receiver_websocket = Some c ->
  link st websocket = None ->
  loop_body json_loads str_of websocket message_str st
  = (Ret tt,
     deliver st
       [(websocket,
         SERVER_ERROR "Internal server error while processing your message.")]).
Proof.
  intros Hdec Hty Hall Hreg Hdown Hup.
  rewrite (direct_step json_loads str_of websocket message_str items st Hdec Hty Hall).
  rewrite Hreg, Hdown.
  destruct (atom_of (field items "receiver_id")) eqn:Ha.
  - now apply send_up.
  - now apply RegistryFacts.lookup_hashable in Hreg.
Qed.

(** X4: a direct message is routed by its [receiver_id] alone.  The
    [sender_id] only has to be true: it is not compared with the
    identifier the connection registered under, so a complete message
    for an online receiver is passed on in the same way from whichever
    connection it comes, be it one that is registered under another
    name. *)
Theorem direct_message_sender_is_not_checked
        (websocket other : ws) (receiver_websocket : ws) (message_str : string)
        (items : list (string * json)) (st : world) :
  json_loads message_str = Some (JDict items) ->
  field items "type" = JStr "AGENT_MESSAGE" ->
  all [field items "sender_id"; field items "receiver_id"; field items "content"]
  = true ->
  Registry.lookup st.(CONNECTED_AGENTS) (field items "receiver_id")
  = Some receiver_websocket ->
  link st receiver_websocket = None ->
  loop_body json_loads str_of websocket message_str st
  = (Ret tt, deliver st [(receiver_websocket, Verbatim message_str)])
  /\ loop_body json_loads str_of other message_str st
     = loop_body json_loads str_of websocket message_str st.
Proof.
  intros Hdec Hty Hall Hreg Hopen.
  rewrite !(direct_step json_loads str_of _ message_str items st Hdec Hty Hall).
  rewrite Hreg, Hopen.
  destruct (atom_of (field items "receiver_id")) eqn:Ha.
  - split; reflexivity.
  - now apply RegistryFacts.lookup_hashable in Hreg.
Qed.

(** X5: a frame that decodes to something other than an object (a list,
    a string, a number, [null]) has no [get]: the sender is told
    "Internal server error", nothing else is sent and the session
    goes on. *)
Theorem non_object_frame_is_an_internal_error
        (websocket : ws) (message_str : string) (message : json) (st : world) :
  json_loads message_str = Some message ->
  (forall items, message <> JDict items) ->
  link st websocket = None ->
  loop_body json_loads str_of websocket message_str st
  = (Ret tt,
     deliver st
       [(websocket,
         SERVER_ERROR "Internal server error while processing your message.")]).
Proof.
  intros Hdec Hobj Hup. unfold loop_body, try_except, dispatch, bind, loads.
  rewrite Hdec.
  destruct message as [| | | | |items]; simpl; try now rewrite send_up.
  now destruct (Hobj items).
Qed.


End RoutingFacts.

(** ** What the receive loop sends, and to whom *)

Lemma sends_only_quiet (P : ws * wire -> Prop) {A} (c : M A) :
  (forall st, snd (c st) = st) -> sends_only P c.
Proof.
  intros H st. exists []. rewrite H, deliver_nil. now split.
Qed.

Lemma sends_only_bind (P : ws * wire -> Prop) {A B} (c : M A) (k : A -> M B) :
  sends_only P c -> (forall a, sends_only P (k a)) -> sends_only P (bind c k).
Proof.
  intros Hc Hk st. unfold bind. destruct (Hc st) as [l [Hl HP]].
  destruct (c st) as [[a|e] st1]; simpl in Hl; subst st1.
  - destruct (Hk a (deliver st l)) as [l' [Hl' HP']]. exists (l ++ l')%list.
    rewrite Hl', deliver_deliver. split; [reflexivity|].
    apply Forall_app. now split.
  - now exists l.
Qed.

Lemma sends_only_try (P : ws * wire -> Prop) {A} (c : M A) (h : exn -> M A) :
  sends_only P c -> (forall e, sends_only P (h e)) -> sends_only P (try_except c h).
Proof.
  intros Hc Hh st. unfold try_except. destruct (Hc st) as [l [Hl HP]].
  destruct (c st) as [[a|e] st1]; simpl in Hl; subst st1.
  - now exists l.
  - destruct (Hh e (deliver st l)) as [l' [Hl' HP']]. exists (l ++ l')%list.
    rewrite Hl', deliver_deliver. split; [reflexivity|].
    apply Forall_app. now split.
Qed.

Lemma sends_only_send (P : ws * wire -> Prop) (w : ws) (m : wire) :
  P (w, m) -> sends_only P (send w m).
Proof.
  intros HP st. unfold send. destruct (link st w).
  - exists []. simpl. rewrite deliver_nil. now split.
  - exists [(w, m)]. split; [reflexivity|]. now constructor.
Qed.

Lemma sends_only_broadcast (P : ws * wire -> Prop) (items : list (json * ws))
      (sender_id : json) (message_str : string) :
  (forall w, P (w, Verbatim message_str)) ->
  sends_only P (broadcast items sender_id message_str).
Proof.
  intro HP. induction items as [|[k w] items IH]; simpl.
  - now apply sends_only_quiet.
  - apply sends_only_bind; [|intros _; exact IH].
    destruct (negb (py_eq k sender_id)); [|now apply sends_only_quiet].
    apply sends_only_try; [now apply sends_only_send|].
    intros _. now apply sends_only_quiet.
Qed.

Lemma contains_quiet (k : json) (st : world) : snd (contains k st) = st.
Proof. unfold contains. now destruct (atom_of k). Qed.

Lemma getitem_quiet (k : json) (st : world) : snd (getitem k st) = st.
Proof.
  unfold getitem. destruct (atom_of k); [|reflexivity].
  now destruct (Registry.lookup _ _).
Qed.

Lemma get_quiet (obj : json) (k : string) (st : world) : snd (get obj k st) = st.
Proof. now destruct obj. Qed.

Section Provenance.

Variable json_loads : string -> option json.
Variable str_of : json -> string.

(** X7: whatever the frame and the state, all that one iteration of the
    receive loop sends is copies of the received text, unaltered, and
    answers to the connection the text came from, each a [SERVER_ERROR]
    or a [LIST_AGENTS_RESPONSE].  No other connection is ever sent
    anything the server wrote, and nothing but the trace changes. *)
Theorem loop_body_sends_copies_or_answers
        (websocket : ws) (message_str : string) (st : world) :
  exists l,
    snd (loop_body json_loads str_of websocket message_str st) = deliver st l
    /\ Forall (copy_or_answer websocket message_str) l.
Proof.
  revert st. change (sends_only (copy_or_answer websocket message_str)
                                (loop_body json_loads str_of websocket message_str)).
  assert (Herr : forall content,
             sends_only (copy_or_answer websocket message_str)
                        (send websocket (SERVER_ERROR content))).
  { intro content. apply sends_only_send. right. split; [reflexivity|].
    left. now exists content. }
  assert (Hcopy : forall w, copy_or_answer websocket message_str
                                           (w, Verbatim message_str)).
  { intro w. now left. }
  apply sends_only_try; [|intros []; apply Herr].
  unfold dispatch, agents.
  apply sends_only_bind;
    [unfold loads; destruct (json_loads message_str);
     now apply sends_only_quiet | intro message].
  apply sends_only_bind;
    [apply sends_only_quiet; apply get_quiet | intro message_type].
  apply sends_only_bind;
    [apply sends_only_quiet; apply get_quiet | intro sender_id].
  destruct (py_eq message_type (JStr "AGENT_MESSAGE")).
  { apply sends_only_bind;
      [apply sends_only_quiet; apply get_quiet | intro receiver_id].
    apply sends_only_bind;
      [apply sends_only_quiet; apply get_quiet | intro content].
    destruct (negb (all [sender_id; receiver_id; content])); [apply Herr|].
    apply sends_only_bind;
      [apply sends_only_quiet; apply contains_quiet | intros [|]]; [|apply Herr].
    apply sends_only_bind;
      [apply sends_only_quiet; apply getitem_quiet | intro w].
    now apply sends_only_send. }
  destruct (py_eq message_type (JStr "BROADCAST_MESSAGE")).
  { apply sends_only_bind;
      [apply sends_only_quiet; apply get_quiet | intro content].
    destruct (negb (all [sender_id; content])); [apply Herr|].
    apply sends_only_bind; [now apply sends_only_quiet | intro d].
    now apply sends_only_broadcast. }
  destruct (py_eq message_type (JStr "LIST_AGENTS_REQUEST")); [|apply Herr].
  apply sends_only_bind; [now apply sends_only_quiet | intro d].
  apply sends_only_send. right. split; [reflexivity|]. right.
  now exists (Registry.keys d), sender_id.
Qed.

End Provenance.

(** ** More on registration and on the end of a connection *)

Module RegistryMore.

Import Registry.

Lemma lookup_app (d : t) (a k : json) (w : ws) :
  lookup (d ++ [(a, w)])%list k
  = match lookup d k with
    | Some x => Some x
    | None => if py_eq a k then Some w else None
    end.
Proof.
  induction d as [|[k0 w0] d IH]; simpl; [reflexivity|].
  now destruct (py_eq k0 k).
Qed.

Lemma delitem_app_fresh (d : t) (k : json) (w : ws) :
  lookup d k = None -> atom_of k <> None -> delitem (d ++ [(k, w)])%list k = d.
Proof.
  intros Hl Hh. induction d as [|[k0 w0] d IH]; simpl.
  - now rewrite (py_eq_refl k Hh).
  - simpl in Hl. destruct (py_eq k0 k); [discriminate|]. now rewrite IH.
Qed.

Lemma py_eq_congr_l (a b c : json) : py_eq a b = true -> py_eq a c = py_eq b c.
Proof.
  intro H. apply py_eq_true in H. destruct H as [x [Ha Hb]].
  unfold py_eq. now rewrite Ha, Hb.
Qed.

Lemma lookup_delitem_neq (d : t) (id k : json) :
  py_eq id k = false -> lookup (delitem d id) k = lookup d k.
Proof.
  intro Hne. induction d as [|[k0 w0] d IH]; simpl; [reflexivity|].
  destruct (py_eq k0 id) eqn:E.
  - rewrite (py_eq_congr_l k0 id k E), Hne. reflexivity.
  - simpl. now rewrite IH.
Qed.

Lemma lookup_delitem_some (d : t) (id k : json) (w : ws) :
  wf d -> lookup (delitem d id) k = Some w -> lookup d k = Some w.
Proof.
  intros Hwf H. destruct (py_eq id k) eqn:E.
  - rewrite <- (RegistryFacts.lookup_congr _ id k E) in H.
    now rewrite (RegistryFacts.lookup_delitem_same d id Hwf) in H.
  - now rewrite (lookup_delitem_neq d id k E) in H.
Qed.

End RegistryMore.

(** X8: what [unregister_agent] removes.  For a hashable identifier and
    a well-formed dictionary it returns normally, the identifier is no
    key afterwards, every other identifier maps as before, and neither
    the connections nor the trace of sent messages change: the agent
    that goes is told nothing. *)
Theorem unregister_agent_removes_exactly (A : json) (st : world) :
  atom_of A <> None ->
  Registry.wf st.(CONNECTED_AGENTS) ->
  let '(r, st') := unregister_agent A st in
  r = Ret tt
  /\ Registry.lookup st'.(CONNECTED_AGENTS) A = None
  /\ (forall k, py_eq A k = false ->
                Registry.lookup st'.(CONNECTED_AGENTS) k
                = Registry.lookup st.(CONNECTED_AGENTS) k)
  /\ st'.(hung_up) = st.(hung_up)
  /\ st'.(delivered) = st.(delivered).
Proof.
  intros Hh Hwf. unfold unregister_agent, bind, contains.
  destruct (atom_of A); [|congruence].
  destruct (Registry.lookup (CONNECTED_AGENTS st) A) eqn:Hl; simpl.
  - repeat split.
    + now apply RegistryFacts.lookup_delitem_same.
    + intros k Hk. now apply RegistryMore.lookup_delitem_neq.
  - repeat split. exact Hl.
Qed.

Section HandlerFacts.

Variable json_loads : string -> option json.
Variable str_of : json -> string.
Variable SHARED_SECRET : string.

(** Lines 61-74 in one equation, the connection being open or not. *)
Lemma validate_eq (websocket : ws) (agent_id auth_token : json) (st : world) :
  validate str_of SHARED_SECRET websocket agent_id auth_token st
  = let refuse content :=
      match link st websocket with
      | Some c => (Raise (ConnectionClosed c), st)
      | None => (Ret Refused, deliver st [(websocket, SERVER_ERROR content)])
      end in
    if negb (truthy agent_id) then
      refuse "Registration failed: 'agent_id' is missing."
    else if negb (py_eq auth_token (JStr SHARED_SECRET)) then
      refuse "Authentication failed: Invalid token."
    else
      match atom_of agent_id with
      | None => (Raise TypeError, st)
      | Some _ =>
          match Registry.lookup st.(CONNECTED_AGENTS) agent_id with
          | Some _ =>
              refuse ("Agent ID '" ++ str_of agent_id
                      ++ "' is already in use. Please choose a different ID.")
          | None =>
              let st1 :=
                mkWorld (st.(CONNECTED_AGENTS) ++ [(agent_id, websocket)])
                        st.(hung_up) st.(delivered) in
              match link st websocket with
              | Some c => (Raise (ConnectionClosed c), st1)
              | None =>
                  (Ret Accepted,
                   deliver st1
                     [(websocket,
                       SERVER_INFO ("Welcome, agent " ++ str_of agent_id
                                    ++ "! You are now online."))])
              end
          end
      end.
Proof.
  unfold validate. cbv zeta.
  destruct (negb (truthy agent_id)).
  { unfold bind, send. now destruct (link st websocket). }
  destruct (negb (py_eq auth_token (JStr SHARED_SECRET))).
  { unfold bind, send. now destruct (link st websocket). }
  unfold bind at 1. unfold contains.
  destruct (atom_of agent_id); [|reflexivity].
  destruct (Registry.lookup (CONNECTED_AGENTS st) agent_id) eqn:Hl.
  - unfold bind, send. now destruct (link st websocket).
  - unfold register_agent, bind, with_agents, send, link, deliver. simpl.
    rewrite (RegistryFacts.setitem_absent _ _ _ Hl).
    now destruct (find (fun p => Nat.eqb (fst p) websocket) (hung_up st))
      as [[]|].
Qed.

(** What the checks of lines 61-74 do to the state: at most one item is
    added to the trace, for the connection itself, and the dictionary
    either stays or gains, last, the entry of a true, hashable
    identifier that was no key. *)
Lemma validate_effect (websocket : ws) (agent_id auth_token : json) (st : world) :
  exists l,
    (l = [] \/ exists m, l = [(websocket, m)])
    /\ ((snd (validate str_of SHARED_SECRET websocket agent_id auth_token st)
         = deliver st l
         /\ fst (validate str_of SHARED_SECRET websocket agent_id auth_token st)
            <> Ret Accepted)
        \/ (truthy agent_id = true
            /\ atom_of agent_id <> None
            /\ Registry.lookup st.(CONNECTED_AGENTS) agent_id = None
            /\ snd (validate str_of SHARED_SECRET websocket agent_id auth_token st)
               = deliver (mkWorld (st.(CONNECTED_AGENTS) ++ [(agent_id, websocket)])
                                  st.(hung_up) st.(delivered)) l)).
Proof.
  rewrite validate_eq. cbv zeta.
  assert (Hstay : forall content,
    exists l,
      (l = [] \/ exists m, l = [(websocket, m)])
      /\ snd (match link st websocket with
              | Some c => (@Raise verdict (ConnectionClosed c), st)
              | None => (Ret Refused, deliver st [(websocket, SERVER_ERROR content)])
              end) = deliver st l
      /\ fst (match link st websocket with
              | Some c => (@Raise verdict (ConnectionClosed c), st)
              | None => (Ret Refused, deliver st [(websocket, SERVER_ERROR content)])
              end) <> Ret Accepted).
  { intro content. destruct (link st websocket).
    - exists []. rewrite deliver_nil. repeat split; [now left | discriminate].
    - eexists. repeat split; [right; eexists; reflexivity | discriminate]. }
  destruct (truthy agent_id) eqn:Ht; cbv [negb]; cbv beta iota.
  2:{ destruct (Hstay "Registration failed: 'agent_id' is missing.")
        as [l [H1 H2]]. exists l. split; [exact H1 | now left]. }
  destruct (py_eq auth_token (JStr SHARED_SECRET)); cbv beta iota.
  2:{ destruct (Hstay "Authentication failed: Invalid token.")
        as [l [H1 H2]]. exists l. split; [exact H1 | now left]. }
  destruct (atom_of agent_id) eqn:Ha.
  2:{ exists []. split; [now left|]. left. rewrite deliver_nil.
      split; [reflexivity | discriminate]. }
  destruct (Registry.lookup (CONNECTED_AGENTS st) agent_id) eqn:Hl.
  { destruct (Hstay ("Agent ID '" ++ str_of agent_id
                     ++ "' is already in use. Please choose a different ID."))
      as [l [H1 H2]]. exists l. split; [exact H1 | now left]. }
  destruct (link st websocket).
  - exists []. split; [now left|]. right. rewrite deliver_nil.
    repeat split; congruence.
  - eexists. split; [right; eexists; reflexivity|]. right.
    repeat split; congruence.
Qed.

(** The same for lines 55-78 as a whole; in the second case the local
    [agent_id] is the identifier that was added. *)
Lemma handshake_effect (websocket : ws) (first : string) (st : world) :
  exists l,
    (l = [] \/ exists m, l = [(websocket, m)])
    /\ let '(agent_id, r, st1) :=
         handshake json_loads str_of SHARED_SECRET websocket first st in
       (st1 = deliver st l /\ r <> Ret Accepted)
       \/ (truthy agent_id = true
           /\ atom_of agent_id <> None
           /\ Registry.lookup st.(CONNECTED_AGENTS) agent_id = None
           /\ st1 = deliver (mkWorld (st.(CONNECTED_AGENTS) ++ [(agent_id, websocket)])
                                     st.(hung_up) st.(delivered)) l).
Proof.
  unfold handshake.
  destruct (json_loads first) as [[| | | | |items]|];
    try (exists []; split; [now left|]; left; rewrite deliver_nil;
         split; [reflexivity | discriminate]).
  cbv [get ret bind].
  destruct (py_eq (field items "type") (JStr "AGENT_REGISTER")).
  - destruct (validate_effect websocket (field items "agent_id")
                              (field items "auth_token") st) as [l [Hl H]].
    exists l. split; [exact Hl|].
    destruct (validate _ _ _ _ _ st) as [r st1]. exact H.
  - unfold send. destruct (link st websocket).
    + exists []. split; [now left|]. left. rewrite deliver_nil.
      split; [reflexivity | discriminate].
    + eexists. split; [right; eexists; reflexivity|]. left.
      split; [reflexivity | discriminate].
Qed.

(** X9: registration never displaces an agent that is online.  Whatever
    the first frame, every identifier that was a key before lines 55-78
    ran is a key afterwards, for the same connection. *)
Theorem handshake_keeps_online_agents
        (websocket : ws) (first : string) (st : world) (k : json) (w : ws) :
  Registry.lookup st.(CONNECTED_AGENTS) k = Some w ->
  let '(_, _, st1) :=
    handshake json_loads str_of SHARED_SECRET websocket first st in
  Registry.lookup st1.(CONNECTED_AGENTS) k = Some w.
Proof.
  intro Hk. destruct (handshake_effect websocket first st) as [l [_ H]].
  destruct (handshake _ _ _ _ first st) as [[agent_id r] st1].
  destruct H as [[-> _] | [_ [_ [_ ->]]]]; simpl.
  - exact Hk.
  - now rewrite RegistryMore.lookup_app, Hk.
Qed.

(** X10: a registration that passes.  For a true, hashable identifier
    that is no key yet, the right token and an open connection, the
    identifier is entered last in the dictionary for this connection,
    the connection is sent the welcome, the handler goes on to the
    receive loop, and every other identifier maps as before. *)
Theorem registration_is_entered_last
        (websocket : ws) (first : string) (items : list (string * json))
        (st : world) :
  json_loads first = Some (JDict items) ->
  field items "type" = JStr "AGENT_REGISTER" ->
  truthy (field items "agent_id") = true ->
  field items "auth_token" = JStr SHARED_SECRET ->
  atom_of (field items "agent_id") <> None ->
  Registry.lookup st.(CONNECTED_AGENTS) (field items "agent_id") = None ->
  link st websocket = None ->
  let agent_id := field items "agent_id" in
  let st1 :=
    mkWorld (st.(CONNECTED_AGENTS) ++ [(agent_id, websocket)]) st.(hung_up)
            (st.(delivered)
             ++ [(websocket,
                  SERVER_INFO ("Welcome, agent " ++ str_of agent_id
                               ++ "! You are now online."))]) in
  handshake json_loads str_of SHARED_SECRET websocket first st
  = (agent_id, Ret Accepted, st1)
  /\ Registry.lookup st1.(CONNECTED_AGENTS) agent_id = Some websocket
  /\ Registry.keys st1.(CONNECTED_AGENTS)
     = (Registry.keys st.(CONNECTED_AGENTS) ++ [agent_id])%list
  /\ (forall k, py_eq agent_id k = false ->
                Registry.lookup st1.(CONNECTED_AGENTS) k
                = Registry.lookup st.(CONNECTED_AGENTS) k).
Proof.
  intros Hdec Hty Ht Htok Hh Hl Hup. cbv zeta.
  repeat split.
  - rewrite (handshake_register json_loads str_of SHARED_SECRET
                                websocket first items st Hdec Hty).
    rewrite (validate_cases str_of SHARED_SECRET websocket _ _ st Hup).
    rewrite Ht, Htok.
    rewrite (proj2 (py_eq_JStr (JStr SHARED_SECRET) SHARED_SECRET) eq_refl).
    cbv [negb]. cbv beta iota.
    destruct (atom_of (field items "agent_id")); [|congruence]. now rewrite Hl.
  - simpl. rewrite RegistryMore.lookup_app, Hl.
    now rewrite (py_eq_refl _ Hh).
  - unfold Registry.keys. simpl. now rewrite map_app.
  - intros k Hk. simpl. rewrite RegistryMore.lookup_app, Hk.
    now destruct (Registry.lookup (CONNECTED_AGENTS st) k).
Qed.

Lemma unregister_agent_eq (agent_id : json) (st : world) :
  unregister_agent agent_id st
  = match atom_of agent_id with
    | None => (Raise TypeError, st)
    | Some _ =>
        (Ret tt,
         mkWorld (Registry.delitem st.(CONNECTED_AGENTS) agent_id)
                 st.(hung_up) st.(delivered))
    end.
Proof.
  unfold unregister_agent, bind, contains.
  destruct (atom_of agent_id); [|reflexivity].
  destruct (Registry.lookup (CONNECTED_AGENTS st) agent_id) eqn:Hl;
    [reflexivity|].
  rewrite (RegistryFacts.delitem_absent _ _ Hl). now destruct st.
Qed.

Lemma handshake_agent_id (websocket : ws) (first : string) (st : world) :
  fst (fst (handshake json_loads str_of SHARED_SECRET websocket first st))
  = named_agent_id json_loads [first].
Proof.
  unfold handshake, named_agent_id.
  destruct (json_loads first) as [[| | | | |items]|]; try reflexivity.
  cbv [get ret bind].
  destruct (py_eq (field items "type") (JStr "AGENT_REGISTER")).
  - now destruct (validate _ _ _ _ _ st).
  - unfold send. now destruct (link st websocket).
Qed.

Lemma session_agent_id (websocket : ws) (frames : list string) (c : closing)
      (st : world) :
  fst (fst (session json_loads str_of SHARED_SECRET websocket frames c st))
  = named_agent_id json_loads frames.
Proof.
  unfold session. destruct frames as [|first rest]; [reflexivity|].
  pose proof (handshake_agent_id websocket first st) as H.
  destruct (handshake _ _ _ _ first st) as [[agent_id [[]|e]] st1];
    simpl in H; try exact H.
  now destruct (receive_loop _ _ _ rest c st1).
Qed.

(** What the outer [try] block does to the state. *)
Lemma session_effect (websocket : ws) (frames : list string) (c : closing)
      (st : world) :
  exists l,
    let '(agent_id, _, st1) :=
      session json_loads str_of SHARED_SECRET websocket frames c st in
    st1 = deliver st l
    \/ (truthy agent_id = true
        /\ atom_of agent_id <> None
        /\ Registry.lookup st.(CONNECTED_AGENTS) agent_id = None
        /\ st1 = deliver (mkWorld (st.(CONNECTED_AGENTS) ++ [(agent_id, websocket)])
                                  st.(hung_up) st.(delivered)) l).
Proof.
  unfold session. destruct frames as [|first rest].
  { exists []. left. now rewrite deliver_nil. }
  destruct (handshake_effect websocket first st) as [l [_ H]].
  destruct (handshake _ _ _ _ first st) as [[agent_id [[]|e]] st1];
    try (exists l; destruct H as [[-> _] | H]; [now left | now right]).
  destruct (only_sends_receive_loop json_loads str_of websocket rest c st1)
    as [l' Hl'].
  destruct (receive_loop _ _ _ rest c st1) as [r st2]. simpl in Hl'. subst st2.
  exists (l ++ l')%list.
  destruct H as [[-> _] | [H1 [H2 [H3 ->]]]]; rewrite deliver_deliver;
    [now left | now right].
Qed.

(** X11: a handler leaves no entry behind.  Whatever the frames, the way
    the connection closes and the state, when the handler is done every
    key of the dictionary was a key before, for the same connection:
    what the handler registered, it has unregistered. *)
Theorem handler_leaves_no_entry_behind
        (websocket : ws) (frames : list string) (c : closing) (st : world)
        (k : json) (w : ws) :
  Registry.wf st.(CONNECTED_AGENTS) ->
  Registry.lookup
    (snd (handle_agent_connection json_loads str_of SHARED_SECRET
                                  websocket frames c st)).(CONNECTED_AGENTS) k
  = Some w ->
  Registry.lookup st.(CONNECTED_AGENTS) k = Some w.
Proof.
  intro Hwf. unfold handle_agent_connection.
  destruct (session_effect websocket frames c st) as [l H].
  destruct (session _ _ _ websocket frames c st) as [[agent_id r] st1].
  destruct H as [-> | [Ht [Hh [Hl ->]]]].
  - destruct (truthy agent_id); [|trivial].
    rewrite unregister_agent_eq. destruct (atom_of agent_id); [|trivial].
    simpl. now apply RegistryMore.lookup_delitem_some.
  - rewrite Ht, unregister_agent_eq.
    destruct (atom_of agent_id) eqn:Ha; [|congruence]. simpl.
    rewrite RegistryMore.delitem_app_fresh by congruence. trivial.
Qed.

(** X12: a connection that registers and later goes leaves the
    dictionary as it found it.  For a first frame that passes the three
    checks with an identifier that is no key yet, whatever frames
    follow, however the connection closes and even if the welcome
    could not be sent, the handler returns normally with the
    dictionary and the connections as they were. *)
Theorem accepted_session_restores_registry
        (websocket : ws) (first : string) (items : list (string * json))
        (rest : list string) (c : closing) (st : world) :
  json_loads first = Some (JDict items) ->
  field items "type" = JStr "AGENT_REGISTER" ->
  truthy (field items "agent_id") = true ->
  field items "auth_token" = JStr SHARED_SECRET ->
  atom_of (field items "agent_id") <> None ->
  Registry.lookup st.(CONNECTED_AGENTS) (field items "agent_id") = None ->
  let '(r, st') :=
    handle_agent_connection json_loads str_of SHARED_SECRET websocket
                            (first :: rest) c st in
  r = Ret tt
  /\ st'.(CONNECTED_AGENTS) = st.(CONNECTED_AGENTS)
  /\ st'.(hung_up) = st.(hung_up).
Proof.
  intros Hdec Hty Ht Htok Hh Hl.
  unfold handle_agent_connection, session.
  rewrite (handshake_register json_loads str_of SHARED_SECRET
                              websocket first items st Hdec Hty).
  rewrite validate_eq. cbv zeta. rewrite Ht, Htok.
  rewrite (proj2 (py_eq_JStr (JStr SHARED_SECRET) SHARED_SECRET) eq_refl).
  cbv [negb]. cbv beta iota. rewrite Hl.
  destruct (atom_of (field items "agent_id")) eqn:Ha; [|congruence].
  destruct (link st websocket).
  - rewrite Ht, unregister_agent_eq, Ha. simpl.
    rewrite RegistryMore.delitem_app_fresh by congruence. now repeat split.
  - match goal with
    | |- context [receive_loop ?a ?b ?d ?e ?f ?g] =>
        destruct (only_sends_receive_loop a b d e f g) as [l' Hl'];
        destruct (receive_loop a b d e f g) as [r st2]; simpl in Hl'; subst st2
    end.
    rewrite Ht, unregister_agent_eq, Ha. simpl.
    rewrite RegistryMore.delitem_app_fresh by congruence. now repeat split.
Qed.

(** X13: the one exception that leaves the handler.  Every exception of
    the outer [try] block is logged and dropped, but the [finally]
    clause calls [unregister_agent] outside of it: the handler raises,
    a [TypeError], exactly when the first frame is an [AGENT_REGISTER]
    object whose [agent_id] is true and unhashable (a non-empty list or
    object); in every other case it returns normally. *)
Theorem handler_raises_only_for_unhashable_agent_id
        (websocket : ws) (frames : list string) (c : closing) (st : world) :
  fst (handle_agent_connection json_loads str_of SHARED_SECRET
                               websocket frames c st)
  = match named_agent_id json_loads frames with
    | JList (_ :: _) => Raise TypeError
    | JDict (_ :: _) => Raise TypeError
    | _ => Ret tt
    end.
Proof.
  unfold handle_agent_connection.
  pose proof (session_agent_id websocket frames c st) as H.
  destruct (session _ _ _ websocket frames c st) as [[agent_id r] st1].
  simpl in H. subst agent_id.
  destruct (named_agent_id json_loads frames) as [|[]|n|s|[|x xs]|[|kv kvs]];
    simpl truthy; cbv iota; try reflexivity; rewrite ?unregister_agent_eq;
    try reflexivity.
  - now destruct (negb (n =? 0)%Z).
  - now destruct (negb (s =? "")).
Qed.

Lemma receive_loop_close (websocket : ws) (frames : list string) (st : world) :
  snd (receive_loop json_loads str_of websocket frames ClosedOK st)
  = snd (receive_loop json_loads str_of websocket frames ClosedError st).
Proof.
  revert st. induction frames as [|m rest IH]; intro st; simpl; [reflexivity|].
  unfold bind. destruct (loop_body _ _ websocket m st) as [[[]|e] st1];
    [apply IH | reflexivity].
Qed.

(** X14: a connection that breaks is cleaned up like one that closes
    normally: the handler ends in the same state, with the same result,
    whether the iteration over the connection ends quietly or raises
    [ConnectionClosedError]. *)
Theorem abnormal_close_is_cleaned_up_alike
        (websocket : ws) (frames : list string) (st : world) :
  handle_agent_connection json_loads str_of SHARED_SECRET
                          websocket frames ClosedError st
  = handle_agent_connection json_loads str_of SHARED_SECRET
                            websocket frames ClosedOK st.
Proof.
  unfold handle_agent_connection, session.
  destruct frames as [|first rest]; [reflexivity|].
  destruct (handshake _ _ _ websocket first st) as [[agent_id [[]|e]] st1];
    try reflexivity.
  pose proof (receive_loop_close websocket rest st1) as H.
  destruct (receive_loop _ _ websocket rest ClosedOK st1) as [r st2].
  destruct (receive_loop _ _ websocket rest ClosedError st1) as [r' st2'].
  simpl in H. now subst st2'.
Qed.

(** X15: a connection whose first frame does not get it registered
    reaches no one.  The frames it sends afterwards are never read, and
    all the handler sends is at most one message, to that connection
    itself. *)
Theorem unregistered_connection_reaches_no_one
        (websocket : ws) (first : string) (st : world) :
  snd (fst (handshake json_loads str_of SHARED_SECRET websocket first st))
  <> Ret Accepted ->
  exists l,
    (l = [] \/ exists m, l = [(websocket, m)])
    /\ forall rest c,
         (snd (handle_agent_connection json_loads str_of SHARED_SECRET
                                       websocket (first :: rest) c st)).(delivered)
         = (st.(delivered) ++ l)%list.
Proof.
  intro Hno.
  destruct (handshake_effect websocket first st) as [l [Hl H]].
  exists l. split; [exact Hl|]. intros rest c.
  unfold handle_agent_connection, session.
  destruct (handshake _ _ _ websocket first st) as [[agent_id [[]|e]] st1];
    simpl in Hno; try congruence;
    (assert (Hd : delivered st1 = (delivered st ++ l)%list)
       by (destruct H as [[-> _] | [_ [_ [_ ->]]]]; reflexivity));
    (destruct (truthy agent_id); [|exact Hd]);
    rewrite unregister_agent_eq; now destruct (atom_of agent_id).
Qed.

(** X24: what a whole connection does to the dictionary.  Whatever the
    frames, the way the connection closes and the state, when the
    handler is done the dictionary is the one it found, less the entry
    of the identifier that the first frame named as [agent_id], if that
    is true and hashable, and whether or not this connection was the
    one registered under it. *)
Theorem handler_net_effect_on_registry
        (websocket : ws) (frames : list string) (c : closing) (st : world) :
  let agent_id := named_agent_id json_loads frames in
  (snd (handle_agent_connection json_loads str_of SHARED_SECRET
                                websocket frames c st)).(CONNECTED_AGENTS)
  = if truthy agent_id
    then match atom_of agent_id with
         | Some _ => Registry.delitem st.(CONNECTED_AGENTS) agent_id
         | None => st.(CONNECTED_AGENTS)
         end
    else st.(CONNECTED_AGENTS).
Proof.
  cbv zeta. unfold handle_agent_connection.
  destruct (session_effect websocket frames c st) as [l H].
  pose proof (session_agent_id websocket frames c st) as Hid.
  destruct (session _ _ _ websocket frames c st) as [[agent_id r] st1].
  simpl in Hid. subst agent_id.
  destruct H as [-> | [Ht [Hh [Hl ->]]]].
  - destruct (truthy (named_agent_id json_loads frames)); [|reflexivity].
    rewrite unregister_agent_eq.
    now destruct (atom_of (named_agent_id json_loads frames)).
  - rewrite Ht, unregister_agent_eq.
    destruct (atom_of (named_agent_id json_loads frames)) eqn:Ha; [|congruence].
    simpl. rewrite RegistryMore.delitem_app_fresh by congruence.
    now rewrite RegistryFacts.delitem_absent.
Qed.

End HandlerFacts.

(** ** The command line of the agent *)

Module PyStrFacts.

Import PyStr.

Lemma lower_app (a b : string) : lower (a ++ b) = lower a ++ lower b.
Proof. induction a as [|c a IH]; simpl; [reflexivity | now rewrite IH]. Qed.

Lemma startswith_app (p s : string) : startswith (p ++ s) p = true.
Proof.
  unfold startswith. induction p as [|c p IH]; simpl.
  - now destruct s.
  - destruct (ascii_dec c c); [exact IH | congruence].
Qed.

Lemma lower_char_space (c : ascii) :
  Ascii.eqb (lower_char c) " "%char = Ascii.eqb c " "%char.
Proof.
  destruct c as [[|] [|] [|] [|] [|] [|] [|] [|]]; reflexivity.
Qed.

Lemma has_space_lower (s : string) :
  has_char " "%char (lower s) = has_char " "%char s.
Proof.
  induction s as [|c s IH]; simpl; [reflexivity|].
  now rewrite lower_char_space, IH.
Qed.

Lemma cut_app (sep : ascii) (a b : string) :
  has_char sep a = false -> cut sep (a ++ String sep b) = Some (a, b).
Proof.
  induction a as [|c a IH]; simpl; intro H.
  - now rewrite Ascii.eqb_refl.
  - apply orb_false_elim in H. destruct H as [Hc Ha].
    now rewrite Hc, (IH Ha).
Qed.

Lemma cut_some (sep : ascii) (s a b : string) :
  cut sep s = Some (a, b) -> has_char sep a = false /\ s = a ++ String sep b.
Proof.
  revert a b. induction s as [|c s IH]; simpl; intros a b H; [discriminate|].
  destruct (Ascii.eqb c sep) eqn:E.
  - inversion H. subst. apply Ascii.eqb_eq in E. now subst.
  - destruct (cut sep s) as [[a' b']|]; [|discriminate].
    inversion H. subst. destruct (IH a' b eq_refl) as [Ha Hs].
    simpl. rewrite E, Ha. split; [reflexivity | now rewrite Hs].
Qed.

Lemma lstrip_head (s : string) :
  match lstrip s with
  | EmptyString => True
  | String c _ => isspace c = false
  end.
Proof.
  induction s as [|c s IH]; simpl; [trivial|].
  destruct (isspace c) eqn:E; [exact IH | exact E].
Qed.

Lemma rstrip_rstrip (s : string) : rstrip (rstrip s) = rstrip s.
Proof.
  induction s as [|c s IH]; simpl; [reflexivity|].
  destruct (rstrip s) as [|c' r] eqn:E.
  - destruct (isspace c) eqn:Ec; simpl; [reflexivity | now rewrite Ec].
  - simpl. simpl in IH. destruct (rstrip r) as [|c'' r'] eqn:E'.
    + destruct (isspace c'); [discriminate|]. now inversion IH.
    + now rewrite IH.
Qed.

Lemma rstrip_head (c : ascii) (s : string) :
  isspace c = false -> exists r, rstrip (String c s) = String c r.
Proof.
  intro H. simpl. destruct (rstrip s); [rewrite H|]; eauto.
Qed.

Lemma strip_strip (s : string) : strip (strip s) = strip s.
Proof.
  unfold strip. pose proof (lstrip_head s) as H.
  destruct (lstrip s) as [|c t]; [reflexivity|].
  destruct (rstrip_head c t H) as [r Hr]. rewrite Hr.
  simpl lstrip. rewrite H. rewrite <- Hr. apply rstrip_rstrip.
Qed.

End PyStrFacts.

Module ClientFacts.

Import Client.

Lemma transmit_effect (m : list (string * string)) (self : agent) :
  agent_id (transmit m self) = agent_id self
  /\ websocket (transmit m self) = websocket self
  /\ (outbox (transmit m self) = outbox self
      \/ (websocket self = Some Open
          /\ outbox (transmit m self) = (outbox self ++ [m])%list)).
Proof.
  unfold transmit. destruct (websocket self) as [[| |]|] eqn:E; simpl;
    rewrite ?E; repeat split; try (now left). right. now split.
Qed.

Lemma guarded_transmit_effect (m : list (string * string)) (self : agent) :
  let self' := if unusable self then self else transmit m self in
  agent_id self' = agent_id self
  /\ websocket self' = websocket self
  /\ (outbox self' = outbox self
      \/ (websocket self = Some Open
          /\ outbox self' = (outbox self ++ [m])%list)).
Proof.
  cbv zeta. destruct (unusable self); [auto | apply transmit_effect].
Qed.

(** What one command does to the identity, the connection and the
    messages sent. *)
Lemma command_effect (user_input : string) (self : agent) :
  agent_id (command user_input self) = agent_id self
  /\ websocket (command user_input self) = websocket self
  /\ (outbox (command user_input self) = outbox self
      \/ exists m, cli_message (agent_id self) m
                   /\ websocket self = Some Open
                   /\ outbox (command user_input self) = (outbox self ++ [m])%list).
Proof.
  assert (Hsend : forall m,
             cli_message (agent_id self) m ->
             let self' := if unusable self then self else transmit m self in
             agent_id self' = agent_id self
             /\ websocket self' = websocket self
             /\ (outbox self' = outbox self
                 \/ exists m, cli_message (agent_id self) m
                              /\ websocket self = Some Open
                              /\ outbox self' = (outbox self ++ [m])%list)).
  { intros m Hm. destruct (guarded_transmit_effect m self) as [H1 [H2 H3]].
    repeat split; [exact H1 | exact H2 |].
    destruct H3 as [H3 | [H3 H4]]; [now left | right; now exists m]. }
  unfold command.
  destruct (PyStr.lower user_input =? "/list").
  { apply Hsend. now left. }
  destruct (PyStr.startswith (PyStr.lower user_input) "/broadcast ").
  { cbv zeta.
    destruct (PyStr.strip (PyStr.drop (String.length "/broadcast ") user_input)
              =? "") eqn:E; simpl negb; cbv iota; [simpl; auto|].
    apply Hsend. right. left. eexists. split; [reflexivity|]. split.
    - intro H. rewrite H in E. discriminate.
    - apply PyStrFacts.strip_strip. }
  destruct (PyStr.startswith (PyStr.lower user_input) "/msg ").
  { destruct (PyStr.split " "%char 2 user_input)
      as [|x [|target_id [|rest [|y l]]]] eqn:Hs; try (simpl; auto).
    cbv zeta.
    destruct (target_id =? "") eqn:Et; simpl negb; cbv iota;
      [simpl; auto|].
    destruct (PyStr.strip rest =? "") eqn:Ec; simpl negb; cbv iota;
      [simpl; auto|].
    apply Hsend. right. right. exists target_id, (PyStr.strip rest).
    split; [reflexivity|]. split; [|split; [|split]].
    - intro H. rewrite H in Et. discriminate.
    - simpl in Hs. destruct (PyStr.cut " "%char user_input) as [[a b]|];
        [|discriminate].
      destruct (PyStr.cut " "%char b) as [[a' b']|] eqn:Hb; [|discriminate].
      inversion Hs. subst. now apply PyStrFacts.cut_some in Hb.
    - intro H. rewrite H in Ec. discriminate.
    - apply PyStrFacts.strip_strip. }
  destruct (negb (user_input =? "")); simpl; auto.
Qed.

Lemma cli_loop_sends (lines : list string) (self : agent) :
  exists sent,
    outbox (cli_loop lines self) = (outbox self ++ sent)%list
    /\ Forall (cli_message (agent_id self)) sent.
Proof.
  revert self. induction lines as [|user_input rest IH]; intro self; simpl.
  - exists []. rewrite app_nil_r. destruct (negb (is_connected self)); auto.
  - destruct (negb (is_connected self)).
    { exists []. now rewrite app_nil_r. }
    destruct (PyStr.lower user_input =? "exit").
    { exists []. now rewrite app_nil_r. }
    destruct (command_effect user_input self) as [Hid [_ Hout]].
    destruct (IH (command user_input self)) as [sent [Hs HF]].
    rewrite Hid in HF.
    destruct Hout as [Hout | [m [Hm [_ Hout]]]]; rewrite Hout in Hs.
    + now exists sent.
    + exists (m :: sent). rewrite Hs, <- app_assoc. split; [reflexivity|].
      now constructor.
Qed.

Lemma cli_loop_closed (lines : list string) (self : agent) :
  websocket self <> Some Open ->
  outbox (cli_loop lines self) = outbox self.
Proof.
  revert self. induction lines as [|user_input rest IH]; intros self Hw; simpl.
  - now destruct (negb (is_connected self)).
  - destruct (negb (is_connected self)); [reflexivity|].
    destruct (PyStr.lower user_input =? "exit"); [reflexivity|].
    destruct (command_effect user_input self) as [_ [Hws Hout]].
    rewrite IH by now rewrite Hws.
    destruct Hout as [Hout | [m [_ [Hopen _]]]]; [exact Hout | congruence].
Qed.

(** X16: what the command-line task can send.  Whatever is typed, every
    message the task sends carries this agent's identifier as
    [sender_id] and is a list request, a broadcast whose content is not
    empty and has no white space at either end, or a direct message
    with such a content and a target that is not empty and holds no
    space.  In particular the task sends no registration and no
    message with an empty field other than, possibly, the sender's own
    identifier. *)
Theorem cli_sends_only_complete_messages (lines : list string) (self : agent) :
  exists sent,
    outbox (_send_cli_messages_task lines self) = (outbox self ++ sent)%list
    /\ Forall (cli_message (agent_id self)) sent.
Proof.
  unfold _send_cli_messages_task. apply (cli_loop_sends lines (print _ self)).
Qed.

(** X17: nothing is sent on a connection that is not open.  When the
    connection of the agent is missing, closing or closed, the
    command-line task sends nothing, whatever is typed. *)
Theorem cli_sends_nothing_unless_open (lines : list string) (self : agent) :
  websocket self <> Some Open ->
  outbox (_send_cli_messages_task lines self) = outbox self.
Proof.
  intro Hw. unfold _send_cli_messages_task.
  now rewrite cli_loop_closed.
Qed.

(** The branch of [command] a well-formed [/msg] line takes. *)
Lemma msg_command_effect
        (word target_id text : string) (self : agent) :
  PyStr.lower word = "/msg" ->
  target_id <> "" ->
  PyStr.has_char " "%char target_id = false ->
  PyStr.strip text <> "" ->
  is_connected self = true ->
  websocket self = Some Open ->
  let user_input := word ++ " " ++ target_id ++ " " ++ text in
  PyStr.lower user_input <> "exit"
  /\ outbox (command user_input self)
     = (outbox self
        ++ [Agent.direct_message (agent_id self) target_id (PyStr.strip text)])%list
  /\ stdout (command user_input self) = stdout self.
Proof.
  intros Hword Ht Hsp Htext Hcon Hopen user_input.
  assert (Hlow : PyStr.lower user_input
                 = "/msg " ++ PyStr.lower (target_id ++ " " ++ text)).
  { unfold user_input. rewrite PyStrFacts.lower_app, Hword. reflexivity. }
  assert (Hcut : PyStr.split " "%char 2 user_input = [word; target_id; text]).
  { unfold user_input. simpl PyStr.split.
    change (word ++ " " ++ target_id ++ " " ++ text)
      with (word ++ String " "%char (target_id ++ String " "%char text)).
    rewrite PyStrFacts.cut_app.
    - now rewrite PyStrFacts.cut_app.
    - now rewrite <- PyStrFacts.has_space_lower, Hword. }
  split; [rewrite Hlow; discriminate|].
  unfold command. rewrite Hlow, Hcut.
  change ("/msg " ++ PyStr.lower (target_id ++ " " ++ text) =? "/list")
    with false.
  change (PyStr.startswith ("/msg " ++ PyStr.lower (target_id ++ " " ++ text))
                           "/broadcast ") with false.
  rewrite PyStrFacts.startswith_app.
  cbv beta iota zeta.
  destruct (target_id =? "") eqn:Et; [apply String.eqb_eq in Et; congruence|].
  destruct (PyStr.strip text =? "") eqn:Ec; [apply String.eqb_eq in Ec; congruence|].
  simpl negb. simpl andb. cbv iota.
  unfold send_message, unusable, transmit. rewrite Hcon, Hopen. simpl.
  split; reflexivity.
Qed.

(** X18: a well-formed [/msg] line is sent as typed.  For a command
    word that is [/msg] in any mix of cases, a target that is not empty
    and holds no space, and an ASCII text that is more than white
    space, an agent that is connected on an open connection sends one direct
    message: to that target, with the text stripped of the white space
    at its ends, and under its own identifier. *)
Theorem msg_command_is_sent
        (word target_id text : string) (self : agent) :
  PyStr.lower word = "/msg" ->
  target_id <> "" ->
  PyStr.has_char " "%char target_id = false ->
  PyStr.isascii text = true ->
  PyStr.strip text <> "" ->
  is_connected self = true ->
  websocket self = Some Open ->
  let user_input := word ++ " " ++ target_id ++ " " ++ text in
  PyStr.lower user_input <> "exit"
  /\ outbox (command user_input self)
     = (outbox self
        ++ [Agent.direct_message (agent_id self) target_id (PyStr.strip text)])%list
  /\ stdout (command user_input self) = stdout self.
Proof.
  intros Hword Ht Hsp _ Htext Hcon Hopen.
  exact (msg_command_effect word target_id text self
                            Hword Ht Hsp Htext Hcon Hopen).
Qed.

(** X25: the [/broadcast] command.  For a command word that is
    [/broadcast] in any mix of cases, typed by an agent that is
    connected on an open connection, and an ASCII text after it: when
    the text is more than white space one broadcast is sent, carrying the text stripped
    of the white space at its ends, and nothing is printed; when it is
    white space only, nothing is sent and the usage line is printed. *)
Theorem broadcast_command_strips_or_refuses
        (word text : string) (self : agent) :
  PyStr.lower word = "/broadcast" ->
  PyStr.isascii text = true ->
  is_connected self = true ->
  websocket self = Some Open ->
  command (word ++ " " ++ text) self
  = if PyStr.strip text =? "" then print usage_broadcast self
    else mkAgent (agent_id self) (auth_token self) (websocket self)
                 (is_connected self) (online_agents self)
                 (outbox self
                  ++ [Agent.broadcast_message (agent_id self) (PyStr.strip text)])
                 (stdout self).
Proof.
  intros Hword _ Hcon Hopen.
  assert (Hlen : String.length word = 10).
  { assert (H : forall s, String.length (PyStr.lower s) = String.length s)
      by (induction s as [|c s IH]; simpl; congruence).
    rewrite <- H, Hword. reflexivity. }
  assert (Hdrop : PyStr.drop (String.length "/broadcast ") (word ++ " " ++ text)
                  = text).
  { destruct word as [|c1 [|c2 [|c3 [|c4 [|c5 [|c6 [|c7 [|c8 [|c9 [|c10 [|c11 w]]]]]]]]]]];
      try discriminate Hlen. reflexivity. }
  unfold command. rewrite PyStrFacts.lower_app, Hword.
  change ("/broadcast" ++ PyStr.lower (" " ++ text))
    with ("/broadcast " ++ PyStr.lower text).
  change ("/broadcast " ++ PyStr.lower text =? "/list") with false.
  rewrite PyStrFacts.startswith_app. cbv beta iota zeta. rewrite Hdrop.
  destruct (PyStr.strip text =? ""); simpl negb; cbv iota; [reflexivity|].
  unfold broadcast_message, unusable, transmit. now rewrite Hcon, Hopen.
Qed.

Section ReceiveFacts.

Variable json_loads : string -> option json.
Variable str_of : json -> string.

(** A frame that is no [LIST_AGENTS_RESPONSE] object. *)
Definition no_directory (frame : wire) : Prop :=
  forall message,
    loads_frame json_loads frame = Some (JDict message) ->
    py_eq (field message "type") (JStr "LIST_AGENTS_RESPONSE") = false.

Lemma on_frame_keeps (self : agent) (frame : wire) :
  is_connected (on_frame json_loads str_of self frame) = is_connected self
  /\ outbox (on_frame json_loads str_of self frame) = outbox self
  /\ websocket (on_frame json_loads str_of self frame) = websocket self.
Proof.
  unfold on_frame.
  destruct (loads_frame json_loads frame) as [[| | | | |message]|]; auto.
  cbv zeta.
  repeat match goal with
         | |- context [if ?b then _ else _] => destruct b
         | |- context [match PyStr.join ?a ?b with _ => _ end] =>
             destruct (PyStr.join a b)
         end; auto.
Qed.

Lemma on_frame_no_directory (self : agent) (frame : wire) :
  no_directory frame ->
  online_agents (on_frame json_loads str_of self frame) = online_agents self.
Proof.
  intro H. unfold on_frame. unfold no_directory in H.
  destruct (loads_frame json_loads frame) as [[| | | | |message]|]; auto.
  rewrite (H message eq_refl).
  repeat match goal with
         | |- context [if ?b then _ else _] => destruct b
         end; auto.
Qed.

Lemma fold_on_frame_no_directory (frames : list wire) (self : agent) :
  Forall no_directory frames ->
  online_agents (fold_left (on_frame json_loads str_of) frames self)
  = online_agents self.
Proof.
  revert self. induction frames as [|f rest IH]; intros self H; simpl;
    [reflexivity|].
  inversion H; subst. rewrite IH by assumption. now apply on_frame_no_directory.
Qed.

Lemma fold_on_frame_keeps (frames : list wire) (self : agent) :
  outbox (fold_left (on_frame json_loads str_of) frames self) = outbox self.
Proof.
  revert self. induction frames as [|f rest IH]; intro self; simpl;
    [reflexivity|].
  rewrite IH. apply on_frame_keeps.
Qed.

(** X26: the receive task keeps the last directory.  Whatever frames
    come before it and whatever they hold, after a
    [LIST_AGENTS_RESPONSE] followed only by frames of other kinds,
    undecodable ones included, [online_agents] is the list that answer
    carried; the task has sent nothing, and when it ends the agent is
    marked disconnected. *)
Theorem receive_task_keeps_the_last_directory
        (before after : list wire) (agents : list json) (requester_id : json)
        (self : agent) :
  Forall no_directory after ->
  let self' :=
    _receive_messages_task json_loads str_of
      (before ++ LIST_AGENTS_RESPONSE agents requester_id :: after) self in
  online_agents self' = JList agents
  /\ outbox self' = outbox self
  /\ is_connected self' = false.
Proof.
  intros Hafter. cbv zeta. unfold _receive_messages_task.
  split; [|split]; [| |reflexivity].
  - change (online_agents (set_is_connected false ?x)) with (online_agents x).
    rewrite fold_left_app. simpl fold_left.
    rewrite fold_on_frame_no_directory by assumption.
    unfold on_frame at 1, LIST_AGENTS_RESPONSE, loads_frame.
    change (field _ "type") with (JStr "LIST_AGENTS_RESPONSE").
    change (py_eq (JStr "LIST_AGENTS_RESPONSE") (JStr "AGENT_MESSAGE")) with false.
    change (py_eq (JStr "LIST_AGENTS_RESPONSE") (JStr "BROADCAST_MESSAGE"))
      with false.
    change (py_eq (JStr "LIST_AGENTS_RESPONSE") (JStr "LIST_AGENTS_RESPONSE"))
      with true.
    cbv beta iota zeta.
    change (get_default _ "agents" (JList [])) with (JList agents).
    destruct (truthy (JList agents)); [destruct (PyStr.join ", " _)|];
      reflexivity.
  - change (outbox (set_is_connected false ?x)) with (outbox x).
    apply fold_on_frame_keeps.
Qed.

End ReceiveFacts.

End ClientFacts.

(** ** Client and server together *)

Section EndToEnd.

Variable json_loads : string -> option json.

(** [json.dumps] on the dictionaries of strings the agent sends. *)
Variable json_dumps : list (string * string) -> string.

Variable str_of : json -> string.
Variable SHARED_SECRET : string.

Lemma truthy_JStr (s : string) : s <> "" -> truthy (JStr s) = true.
Proof.
  intro H. simpl. destruct (s =? "") eqn:E; [|reflexivity].
  apply String.eqb_eq in E. congruence.
Qed.

(** The [LIST_AGENTS_REQUEST] branch of the loop body. *)
Lemma list_step (conn : ws) (message_str : string)
      (items : list (string * json)) (st : world) :
  json_loads message_str = Some (JDict items) ->
  field items "type" = JStr "LIST_AGENTS_REQUEST" ->
  link st conn = None ->
  loop_body json_loads str_of conn message_str st
  = (Ret tt,
     deliver st
       [(conn, LIST_AGENTS_RESPONSE (Registry.keys st.(CONNECTED_AGENTS))
                                    (field items "sender_id"))]).
Proof.
  intros Hdec Hty Hup.
  unfold loop_body, try_except, dispatch, bind, loads, agents.
  rewrite Hdec. simpl. rewrite Hty. simpl. now rewrite send_up.
Qed.

(** X19: from one prompt to the other screen.  A well-formed [/msg]
    line with an ASCII text, typed by a connected agent whose identifier is not empty is
    sent as one direct message; the server, holding the target as a key
    for an open connection, passes the text on to that connection and
    sends nothing else; the agent at the other end prints the sender's
    identifier and the text, stripped, as typed. *)
Theorem typed_message_reaches_the_other_screen
        (word target_id text : string) (sender receiver : Client.agent)
        (conn receiver_conn : ws) (st : world) :
  PyStr.lower word = "/msg" ->
  target_id <> "" ->
  PyStr.has_char " "%char target_id = false ->
  PyStr.isascii text = true ->
  PyStr.strip text <> "" ->
  Client.agent_id sender <> "" ->
  Client.is_connected sender = true ->
  Client.websocket sender = Some Client.Open ->
  let message :=
    Agent.direct_message (Client.agent_id sender) target_id (PyStr.strip text) in
  json_loads (json_dumps message) = Some (as_dict message) ->
  (forall s, str_of (JStr s) = s) ->
  Registry.lookup st.(CONNECTED_AGENTS) (JStr target_id) = Some receiver_conn ->
  link st receiver_conn = None ->
  Client.outbox
    (Client.command (word ++ " " ++ target_id ++ " " ++ text) sender)
  = (Client.outbox sender ++ [message])%list
  /\ loop_body json_loads str_of conn (json_dumps message) st
     = (Ret tt, deliver st [(receiver_conn, Verbatim (json_dumps message))])
  /\ Client.stdout
       (Client.on_frame json_loads str_of receiver
                        (Verbatim (json_dumps message)))
     = (Client.stdout receiver
        ++ [(PyStr.newline ++ "[DM from " ++ Client.agent_id sender ++ "]: "
             ++ PyStr.strip text ++ PyStr.newline ++ "> ")%string])%list.
Proof.
  intros Hword Ht Hsp _ Htext Hid Hcon Hopen message Hround Hstr Hreg Hup.
  split; [|split].
  - exact (proj1 (proj2 (ClientFacts.msg_command_effect
                           word target_id text sender
                           Hword Ht Hsp Htext Hcon Hopen))).
  - rewrite (direct_step json_loads str_of conn (json_dumps message)
                         _ st Hround eq_refl).
    + change (field _ "receiver_id") with (JStr target_id).
      simpl atom_of. cbv iota. now rewrite Hreg, Hup.
    + change (all _) with (truthy (JStr (Client.agent_id sender))
                           && (truthy (JStr target_id)
                               && (truthy (JStr (PyStr.strip text)) && true))).
      now rewrite !truthy_JStr.
  - unfold Client.on_frame, Client.loads_frame. rewrite Hround.
    unfold as_dict. cbv beta iota.
    change (field _ "type") with (JStr "AGENT_MESSAGE").
    change (py_eq (JStr "AGENT_MESSAGE") (JStr "AGENT_MESSAGE")) with true.
    cbv iota.
    change (field _ "sender_id") with (JStr (Client.agent_id sender)).
    change (field _ "content") with (JStr (PyStr.strip text)).
    now rewrite !Hstr.
Qed.

(** X20: [connect] succeeds exactly when the server registers.  The
    agent sends its registration; the server, on an open connection,
    answers with one frame; from that frame [connect] returns [True]
    if and only if the identifier is not empty, the token is the
    server's secret and the identifier was no key, which is when the
    server has entered the agent and goes on to its receive loop.
    Otherwise [connect] returns [False] and has closed the
    connection. *)
Theorem connect_succeeds_iff_registered
        (self : Client.agent) (conn : ws) (st : world) :
  let registration :=
    Agent.registration_message (Client.agent_id self) (Client.auth_token self) in
  json_loads (json_dumps registration) = Some (as_dict registration) ->
  link st conn = None ->
  let accepted :=
    negb (Client.agent_id self =? "")
    && (Client.auth_token self =? SHARED_SECRET)
    && match Registry.lookup st.(CONNECTED_AGENTS) (JStr (Client.agent_id self)) with
       | None => true
       | Some _ => false
       end in
  exists reply st1 self',
    handshake json_loads str_of SHARED_SECRET conn (json_dumps registration) st
    = (JStr (Client.agent_id self),
       Ret (if accepted then Accepted else Refused), st1)
    /\ st1.(delivered) = (st.(delivered) ++ [(conn, reply)])%list
    /\ Client.connect json_loads true (Some reply) self = Some (accepted, self')
    /\ Client.is_connected self' = accepted
    /\ Client.websocket self'
       = Some (if accepted then Client.Open else Client.Closed)
    /\ Client.outbox self' = (Client.outbox self ++ [registration])%list.
Proof.
  intros registration Hround Hup accepted.
  rewrite (handshake_register json_loads str_of SHARED_SECRET conn
                              (json_dumps registration) _ st Hround eq_refl).
  rewrite (validate_cases str_of SHARED_SECRET conn _ _ st Hup).
  change (field _ "agent_id") with (JStr (Client.agent_id self)).
  change (field _ "auth_token") with (JStr (Client.auth_token self)).
  change (py_eq (JStr (Client.auth_token self)) (JStr SHARED_SECRET))
    with (Client.auth_token self =? SHARED_SECRET).
  change (truthy (JStr (Client.agent_id self)))
    with (negb (Client.agent_id self =? "")).
  simpl atom_of. cbv iota. unfold accepted.
  destruct (Client.agent_id self =? ""); cbv [negb andb]; cbv beta iota.
  { eexists _, _, _. repeat split. }
  destruct (Client.auth_token self =? SHARED_SECRET); cbv beta iota.
  2:{ eexists _, _, _. repeat split. }
  destruct (Registry.lookup (CONNECTED_AGENTS st) (JStr (Client.agent_id self))).
  - eexists _, _, _. repeat split.
  - eexists _, _, _. repeat split.
Qed.

(** X21: [/list] brings the directory over.  The line [/list], in any
    mix of cases, typed by a connected agent sends one list request;
    the server answers on the same connection with the keys of its
    dictionary; on that answer the agent's [online_agents] becomes
    that very list, in the server's order. *)
Theorem list_command_brings_the_directory
        (line : string) (self : Client.agent) (conn : ws) (st : world) :
  PyStr.lower line = "/list" ->
  Client.is_connected self = true ->
  Client.websocket self = Some Client.Open ->
  let request := Agent.list_request (Client.agent_id self) in
  json_loads (json_dumps request) = Some (as_dict request) ->
  link st conn = None ->
  let reply :=
    LIST_AGENTS_RESPONSE (Registry.keys st.(CONNECTED_AGENTS))
                         (JStr (Client.agent_id self)) in
  Client.outbox (Client.command line self)
  = (Client.outbox self ++ [request])%list
  /\ loop_body json_loads str_of conn (json_dumps request) st
     = (Ret tt, deliver st [(conn, reply)])
  /\ Client.online_agents (Client.on_frame json_loads str_of self reply)
     = JList (Registry.keys st.(CONNECTED_AGENTS)).
Proof.
  intros Hline Hcon Hopen request Hround Hup reply. split; [|split].
  - unfold Client.command. rewrite Hline.
    change ("/list" =? "/list") with true. cbv iota.
    unfold Client.request_online_agents, Client.unusable, Client.transmit.
    rewrite Hcon, Hopen. reflexivity.
  - exact (list_step conn (json_dumps request) _ st Hround eq_refl Hup).
  - unfold Client.on_frame, reply, LIST_AGENTS_RESPONSE, Client.loads_frame.
    change (field _ "type") with (JStr "LIST_AGENTS_RESPONSE").
    change (py_eq (JStr "LIST_AGENTS_RESPONSE") (JStr "AGENT_MESSAGE")) with false.
    change (py_eq (JStr "LIST_AGENTS_RESPONSE") (JStr "BROADCAST_MESSAGE"))
      with false.
    change (py_eq (JStr "LIST_AGENTS_RESPONSE") (JStr "LIST_AGENTS_RESPONSE"))
      with true.
    cbv beta iota zeta.
    change (Client.get_default _ "agents" (JList []))
      with (JList (Registry.keys (CONNECTED_AGENTS st))).
    destruct (truthy (JList (Registry.keys (CONNECTED_AGENTS st))));
      [destruct (PyStr.join ", " _)|]; reflexivity.
Qed.

(** X22: a directory that holds an identifier that is no string is not
    shown.  The server registers any true, hashable [agent_id], a
    number as well; once such a key is in the dictionary, the answer to
    a list request makes [', '.join] raise on every agent that asks:
    its [online_agents] is updated but nothing is printed. *)
Theorem directory_with_a_non_string_is_not_shown
        (self : Client.agent) (conn : ws) (message_str : string)
        (items : list (string * json)) (st : world) :
  json_loads message_str = Some (JDict items) ->
  field items "type" = JStr "LIST_AGENTS_REQUEST" ->
  link st conn = None ->
  PyStr.strs_of (Registry.keys st.(CONNECTED_AGENTS)) = None ->
  exists reply,
    loop_body json_loads str_of conn message_str st
    = (Ret tt, deliver st [(conn, reply)])
    /\ Client.on_frame json_loads str_of self reply
       = Client.set_online_agents
           (JList (Registry.keys st.(CONNECTED_AGENTS))) self.
Proof.
  intros Hdec Hty Hup Hbad.
  exists (LIST_AGENTS_RESPONSE (Registry.keys st.(CONNECTED_AGENTS))
                               (field items "sender_id")).
  split; [exact (list_step conn message_str items st Hdec Hty Hup)|].
  unfold Client.on_frame, LIST_AGENTS_RESPONSE, Client.loads_frame.
  change (field _ "type") with (JStr "LIST_AGENTS_RESPONSE").
  change (py_eq (JStr "LIST_AGENTS_RESPONSE") (JStr "AGENT_MESSAGE")) with false.
  change (py_eq (JStr "LIST_AGENTS_RESPONSE") (JStr "BROADCAST_MESSAGE"))
    with false.
  change (py_eq (JStr "LIST_AGENTS_RESPONSE") (JStr "LIST_AGENTS_RESPONSE"))
    with true.
  cbv beta iota zeta.
  change (Client.get_default _ "agents" (JList []))
    with (JList (Registry.keys (CONNECTED_AGENTS st))).
  unfold PyStr.join. rewrite Hbad.
  destruct (Registry.keys (CONNECTED_AGENTS st)); [discriminate | reflexivity].
Qed.

End EndToEnd.

(** ** The further properties at concrete inputs *)

Lemma receive_loop_runs_to_the_close_witness :
  exists l,
    receive_loop sample_loads str_scalar 1
                 [garbage; dumps (Agent.list_request "bob")] ClosedOK online
    = (Ret tt, deliver online l).
Proof.
  apply (receive_loop_runs_to_the_close
           sample_loads str_scalar 1
           [garbage; dumps (Agent.list_request "bob")] ClosedOK online).
  reflexivity.
Defined.

Lemma receive_loop_app_witness :
  receive_loop sample_loads str_scalar 1
               ([garbage] ++ [dumps (Agent.list_request "bob")]) ClosedError online
  = receive_loop sample_loads str_scalar 1
                 [dumps (Agent.list_request "bob")] ClosedError
                 (snd (receive_loop sample_loads str_scalar 1 [garbage]
                                    ClosedOK online)).
Proof.
  apply (receive_loop_app sample_loads str_scalar 1 [garbage]
                          [dumps (Agent.list_request "bob")] ClosedError online).
  reflexivity.
Defined.

Lemma direct_message_to_dropped_receiver_witness :
  let text := dumps (Agent.direct_message "alice" "carol" "hi") in
  loop_body (decoder [Agent.direct_message "alice" "carol" "hi"]) str_scalar
            1 text carol_dropped
  = (Ret tt,
     deliver carol_dropped
       [(1, SERVER_ERROR "Internal server error while processing your message.")]).
Proof.
  exact (direct_message_to_dropped_receiver
           (decoder [Agent.direct_message "alice" "carol" "hi"]) str_scalar
           1 3 (dumps (Agent.direct_message "alice" "carol" "hi"))
           (map (fun kv => (fst kv, JStr (snd kv)))
                (Agent.direct_message "alice" "carol" "hi"))
           ClosedError carol_dropped
           eq_refl eq_refl eq_refl eq_refl eq_refl eq_refl).
Defined.

Lemma direct_message_sender_is_not_checked_witness :
  let text := dumps (Agent.direct_message "bob" "carol" "hi") in
  loop_body (decoder [Agent.direct_message "bob" "carol" "hi"]) str_scalar
            1 text online
  = (Ret tt, deliver online [(3, Verbatim text)]).
Proof.
  exact (proj1 (direct_message_sender_is_not_checked
                  (decoder [Agent.direct_message "bob" "carol" "hi"]) str_scalar
                  1 2 3 (dumps (Agent.direct_message "bob" "carol" "hi"))
                  (map (fun kv => (fst kv, JStr (snd kv)))
                       (Agent.direct_message "bob" "carol" "hi"))
                  online eq_refl eq_refl eq_refl eq_refl eq_refl)).
Defined.

Lemma non_object_frame_witness :
  loop_body (fun text => if text =? "[]" then Some (JList []) else None)
            str_scalar 1 "[]" online
  = (Ret tt,
     deliver online
       [(1, SERVER_ERROR "Internal server error while processing your message.")]).
Proof.
  apply (non_object_frame_is_an_internal_error
           (fun text => if text =? "[]" then Some (JList []) else None)
           str_scalar 1 "[]" (JList []) online).
  - reflexivity.
  - intros items H. discriminate H.
  - reflexivity.
Defined.


Lemma unregister_agent_removes_exactly_witness :
  let '(r, st') := unregister_agent (JStr "bob") online in
  r = Ret tt
  /\ Registry.lookup st'.(CONNECTED_AGENTS) (JStr "bob") = None
  /\ (forall k, py_eq (JStr "bob") k = false ->
                Registry.lookup st'.(CONNECTED_AGENTS) k
                = Registry.lookup online.(CONNECTED_AGENTS) k)
  /\ st'.(hung_up) = online.(hung_up)
  /\ st'.(delivered) = online.(delivered).
Proof.
  apply (unregister_agent_removes_exactly (JStr "bob") online).
  - simpl. discriminate.
  - simpl. repeat split; discriminate.
Defined.

Lemma handshake_keeps_online_agents_witness :
  let '(_, _, st1) :=
    handshake sample_loads str_scalar default_secret 4
              (dumps (Agent.registration_message "bob" "guess")) online in
  Registry.lookup st1.(CONNECTED_AGENTS) (JStr "bob") = Some 2.
Proof.
  apply (handshake_keeps_online_agents
           sample_loads str_scalar default_secret 4
           (dumps (Agent.registration_message "bob" "guess")) online
           (JStr "bob") 2).
  reflexivity.
Defined.

Lemma registration_is_entered_last_witness :
  let first := dumps (Agent.registration_message "dave" default_secret) in
  handshake (decoder [Agent.registration_message "dave" default_secret])
            str_scalar default_secret 4 first online
  = (JStr "dave", Ret Accepted,
     mkWorld [(JStr "alice", 1); (JStr "bob", 2); (JStr "carol", 3);
              (JStr "dave", 4)] []
             [(4, SERVER_INFO "Welcome, agent dave! You are now online.")]).
Proof.
  refine (proj1 (registration_is_entered_last
                   (decoder [Agent.registration_message "dave" default_secret])
                   str_scalar default_secret 4
                   (dumps (Agent.registration_message "dave" default_secret))
                   (map (fun kv => (fst kv, JStr (snd kv)))
                        (Agent.registration_message "dave" default_secret))
                   online eq_refl eq_refl eq_refl eq_refl _ eq_refl eq_refl)).
  simpl. discriminate.
Defined.

Lemma handler_leaves_no_entry_behind_witness :
  Registry.lookup online.(CONNECTED_AGENTS) (JStr "alice") = Some 1.
Proof.
  apply (handler_leaves_no_entry_behind
           sample_loads str_scalar default_secret 4
           [dumps (Agent.registration_message "bob" "guess")] ClosedOK online
           (JStr "alice") 1).
  - simpl. repeat split; discriminate.
  - reflexivity.
Defined.

Lemma accepted_session_restores_registry_witness :
  let '(r, st') :=
    handle_agent_connection
      (decoder [Agent.registration_message "dave" default_secret;
                Agent.list_request "dave"])
      str_scalar default_secret 4
      [dumps (Agent.registration_message "dave" default_secret);
       dumps (Agent.list_request "dave"); garbage]
      ClosedError online in
  r = Ret tt
  /\ st'.(CONNECTED_AGENTS) = online.(CONNECTED_AGENTS)
  /\ st'.(hung_up) = online.(hung_up).
Proof.
  refine (accepted_session_restores_registry
            (decoder [Agent.registration_message "dave" default_secret;
                      Agent.list_request "dave"])
            str_scalar default_secret 4
            (dumps (Agent.registration_message "dave" default_secret))
            (map (fun kv => (fst kv, JStr (snd kv)))
                 (Agent.registration_message "dave" default_secret))
            [dumps (Agent.list_request "dave"); garbage]
            ClosedError online eq_refl eq_refl eq_refl eq_refl _ eq_refl).
  simpl. discriminate.
Defined.

Lemma unregistered_connection_reaches_no_one_witness :
  exists l,
    (l = [] \/ exists m, l = [(4, m)])
    /\ forall rest c,
         (snd (handle_agent_connection sample_loads str_scalar default_secret
                                       4 (garbage :: rest) c online)).(delivered)
         = (online.(delivered) ++ l)%list.
Proof.
  apply (unregistered_connection_reaches_no_one
           sample_loads str_scalar default_secret 4 garbage online).
  simpl. discriminate.
Defined.

Lemma cli_sends_nothing_unless_open_witness :
  let self := Client.mkAgent "alice" default_secret (Some Client.Closed) true
                             (JList []) [] [] in
  Client.outbox
    (Client._send_cli_messages_task ["/list"; "/msg bob hi"; "/broadcast x"] self)
  = Client.outbox self.
Proof.
  apply (ClientFacts.cli_sends_nothing_unless_open
           ["/list"; "/msg bob hi"; "/broadcast x"]
           (Client.mkAgent "alice" default_secret (Some Client.Closed) true
                           (JList []) [] [])).
  simpl. discriminate.
Defined.

Lemma msg_command_is_sent_witness :
  let self := Client.mkAgent "alice" default_secret (Some Client.Open) true
                             (JList []) [] [] in
  Client.outbox (Client.command "/MSG bob  hi there " self)
  = [Agent.direct_message "alice" "bob" "hi there"].
Proof.
  refine (proj1 (proj2 (ClientFacts.msg_command_is_sent
                          "/MSG" "bob" " hi there "
                          (Client.mkAgent "alice" default_secret
                                          (Some Client.Open) true (JList []) [] [])
                          eq_refl _ eq_refl eq_refl _ eq_refl eq_refl)));
    discriminate.
Defined.

Lemma typed_message_reaches_the_other_screen_witness :
  let alice := Client.mkAgent "alice" default_secret (Some Client.Open) true
                              (JList []) [] [] in
  let bob := Client.mkAgent "bob" default_secret (Some Client.Open) true
                            (JList []) [] [] in
  let message := Agent.direct_message "alice" "bob" "hi" in
  Client.outbox (Client.command "/msg bob hi" alice) = [message]
  /\ loop_body (decoder [message]) str_scalar 1 (dumps message) online
     = (Ret tt, deliver online [(2, Verbatim (dumps message))])
  /\ Client.stdout
       (Client.on_frame (decoder [message]) str_scalar bob
                        (Verbatim (dumps message)))
     = [(PyStr.newline ++ "[DM from alice]: hi" ++ PyStr.newline ++ "> ")%string].
Proof.
  refine (typed_message_reaches_the_other_screen
            (decoder [Agent.direct_message "alice" "bob" "hi"]) dumps str_scalar
            "/msg" "bob" "hi"
            (Client.mkAgent "alice" default_secret (Some Client.Open) true
                            (JList []) [] [])
            (Client.mkAgent "bob" default_secret (Some Client.Open) true
                            (JList []) [] [])
            1 2 online
            eq_refl _ eq_refl eq_refl _ _ eq_refl eq_refl eq_refl
            (fun s => eq_refl) eq_refl eq_refl);
    discriminate.
Defined.

Lemma connect_succeeds_iff_registered_witness :
  let dave := Client.init "dave" default_secret in
  let registration := Agent.registration_message "dave" default_secret in
  exists reply st1 self',
    handshake (decoder [registration]) str_scalar default_secret 4
              (dumps registration) online
    = (JStr "dave", Ret Accepted, st1)
    /\ st1.(delivered) = (online.(delivered) ++ [(4, reply)])%list
    /\ Client.connect (decoder [registration]) true (Some reply) dave
       = Some (true, self')
    /\ Client.is_connected self' = true
    /\ Client.websocket self' = Some Client.Open
    /\ Client.outbox self' = (Client.outbox dave ++ [registration])%list.
Proof.
  exact (connect_succeeds_iff_registered
           (decoder [Agent.registration_message "dave" default_secret])
           dumps str_scalar default_secret
           (Client.init "dave" default_secret) 4 online eq_refl eq_refl).
Defined.

Lemma list_command_brings_the_directory_witness :
  let bob := Client.mkAgent "bob" default_secret (Some Client.Open) true
                            (JList []) [] [] in
  let request := Agent.list_request "bob" in
  let reply :=
    LIST_AGENTS_RESPONSE [JStr "alice"; JStr "bob"; JStr "carol"] (JStr "bob") in
  Client.outbox (Client.command "/LIST" bob) = [request]
  /\ loop_body sample_loads str_scalar 2 (dumps request) online
     = (Ret tt, deliver online [(2, reply)])
  /\ Client.online_agents (Client.on_frame sample_loads str_scalar bob reply)
     = JList [JStr "alice"; JStr "bob"; JStr "carol"].
Proof.
  exact (list_command_brings_the_directory
           sample_loads dumps str_scalar "/LIST"
           (Client.mkAgent "bob" default_secret (Some Client.Open) true
                           (JList []) [] [])
           2 online eq_refl eq_refl eq_refl eq_refl eq_refl).
Defined.

Lemma directory_with_a_non_string_witness :
  let st := mkWorld [(JStr "alice", 1); (JInt 5, 2)] [] [] in
  let alice := Client.mkAgent "alice" default_secret (Some Client.Open) true
                              (JList []) [] [] in
  exists reply,
    loop_body (decoder [Agent.list_request "alice"]) str_scalar 1
              (dumps (Agent.list_request "alice")) st
    = (Ret tt, deliver st [(1, reply)])
    /\ Client.on_frame (decoder [Agent.list_request "alice"]) str_scalar
                       alice reply
       = Client.set_online_agents (JList [JStr "alice"; JInt 5]) alice.
Proof.
  exact (directory_with_a_non_string_is_not_shown
           (decoder [Agent.list_request "alice"]) str_scalar
           (Client.mkAgent "alice" default_secret (Some Client.Open) true
                           (JList []) [] [])
           1 (dumps (Agent.list_request "alice"))
           (map (fun kv => (fst kv, JStr (snd kv))) (Agent.list_request "alice"))
           (mkWorld [(JStr "alice", 1); (JInt 5, 2)] [] [])
           eq_refl eq_refl eq_refl eq_refl).
Defined.

Lemma broadcast_command_witness :
  let self := Client.mkAgent "alice" default_secret (Some Client.Open) true
                             (JList []) [] [] in
  Client.command "/Broadcast   " self = Client.print Client.usage_broadcast self
  /\ Client.outbox (Client.command "/broadcast  hello all " self)
     = [Agent.broadcast_message "alice" "hello all"].
Proof.
  split.
  - exact (ClientFacts.broadcast_command_strips_or_refuses
             "/Broadcast" "  "
             (Client.mkAgent "alice" default_secret (Some Client.Open) true
                             (JList []) [] [])
             eq_refl eq_refl eq_refl eq_refl).
  - exact (f_equal Client.outbox
             (ClientFacts.broadcast_command_strips_or_refuses
                "/broadcast" " hello all "
                (Client.mkAgent "alice" default_secret (Some Client.Open) true
                                (JList []) [] [])
                eq_refl eq_refl eq_refl eq_refl)).
Defined.

Lemma receive_task_keeps_the_last_directory_witness :
  let self := Client.mkAgent "bob" default_secret (Some Client.Open) true
                             (JList []) [] [] in
  let self' :=
    Client._receive_messages_task sample_loads str_scalar
      ([LIST_AGENTS_RESPONSE [JStr "bob"] (JStr "bob")]
       ++ LIST_AGENTS_RESPONSE [JStr "alice"; JStr "bob"] (JStr "bob")
       :: [Verbatim garbage; SERVER_ERROR "Invalid JSON format received."])
      self in
  Client.online_agents self' = JList [JStr "alice"; JStr "bob"]
  /\ Client.outbox self' = Client.outbox self
  /\ Client.is_connected self' = false.
Proof.
  apply (ClientFacts.receive_task_keeps_the_last_directory
           sample_loads str_scalar
           [LIST_AGENTS_RESPONSE [JStr "bob"] (JStr "bob")]
           [Verbatim garbage; SERVER_ERROR "Invalid JSON format received."]
           [JStr "alice"; JStr "bob"] (JStr "bob")
           (Client.mkAgent "bob" default_secret (Some Client.Open) true
                           (JList []) [] [])).
  repeat constructor; intros message H; [discriminate H|].
  inversion H. reflexivity.
Defined.

(** ** The broadcast loop over the live dictionary *)

Lemma leave_nil (st : world) : leave [] st = (Ret tt, st).
Proof. reflexivity. Qed.

(** With no handler ending during the sends the live loop is the loop
    over the entries as they were at its start. *)
Lemma broadcast_live_idle (todo : list (json * ws)) (sender_id : json)
      (message_str : string) (st : world) :
  broadcast_live (List.length st.(CONNECTED_AGENTS)) todo sender_id message_str
                 [] st
  = broadcast todo sender_id message_str st.
Proof.
  revert st. induction todo as [|[k w] rest IH]; intro st; simpl;
    unfold bind at 1; unfold size; rewrite Nat.eqb_refl;
    change (negb true) with false; cbv beta iota.
  - reflexivity.
  - destruct (negb (py_eq k sender_id)).
    + unfold bind, try_except. cbv beta.
      destruct (link st w) as [c|] eqn:Hl.
      * rewrite (send_down w _ st c Hl). simpl. apply IH.
      * rewrite (send_up w _ st Hl). simpl.
        exact (IH (deliver st [(w, Verbatim message_str)])).
    + unfold bind. simpl. apply IH.
Qed.

Section LiveFacts.

Variable json_loads : string -> option json.
Variable str_of : json -> string.

Lemma dispatch_live_idle (websocket : ws) (message_str : string) (st : world) :
  dispatch_live json_loads str_of websocket message_str [] st
  = dispatch json_loads str_of websocket message_str st.
Proof.
  unfold dispatch_live, dispatch, loads.
  destruct (json_loads message_str) as [message|]; [|reflexivity].
  destruct message as [| | | | |items]; try reflexivity.
  cbv [get bind ret].
  destruct (py_eq (field items "type") (JStr "AGENT_MESSAGE")); [reflexivity|].
  destruct (py_eq (field items "type") (JStr "BROADCAST_MESSAGE"));
    [|reflexivity].
  destruct (negb (all [field items "sender_id"; field items "content"]));
    [reflexivity|].
  unfold agents. apply broadcast_live_idle.
Qed.

Lemma loop_body_live_idle (websocket : ws) (message_str : string) (st : world) :
  loop_body_live json_loads str_of websocket message_str [] st
  = loop_body json_loads str_of websocket message_str st.
Proof.
  unfold loop_body_live, loop_body, try_except.
  now rewrite dispatch_live_idle.
Qed.

End LiveFacts.

(** C5, evaluated.  Alice, bob, carol and dave are online, all four
    connections open, and alice broadcasts.  While the send to bob is
    suspended carol's handler ends and unregisters her.  The next step
    of the iteration over the dictionary raises [RuntimeError], outside
    the [try] that guards each send: bob has the text, dave, who is
    online and whose connection is open, never gets it, and alice gets
    a [SERVER_ERROR].  With no handler ending during the sends the same
    broadcast reaches bob, carol and dave. *)
Theorem broadcast_aborts_when_an_agent_leaves :
  let text := dumps (Agent.broadcast_message "alice" "hello all") in
  let internal :=
    SERVER_ERROR "Internal server error while processing your message." in
  Registry.lookup four_online.(CONNECTED_AGENTS) (JStr "dave") = Some 4
  /\ link four_online 4 = None
  /\ loop_body_live sample_loads str_scalar 1 text [[JStr "carol"]] four_online
     = (Ret tt,
        mkWorld [(JStr "alice", 1); (JStr "bob", 2); (JStr "dave", 4)] []
                [(2, Verbatim text); (1, internal)])
  /\ loop_body_live sample_loads str_scalar 1 text [] four_online
     = (Ret tt,
        deliver four_online
          [(2, Verbatim text); (3, Verbatim text); (4, Verbatim text)])
  /\ broadcast_live 4 four_online.(CONNECTED_AGENTS) (JStr "alice") text
                    [[JStr "carol"]] four_online
     = (Raise RuntimeError,
        mkWorld [(JStr "alice", 1); (JStr "bob", 2); (JStr "dave", 4)] []
                [(2, Verbatim text)]).
Proof. vm_compute. repeat split. Qed.
